(** * upublish: the request-to-response pipeline of the publishing server

    A shallow embedding of the two revisions of the server's main file:
    [src/main.go] (module [MainGo]) and [src/unnamed/part_000] (module
    [Part000], the revision with the index cache and the reload signal).

    Go strings and byte slices are both byte sequences; they are modelled
    as [string] (a list of 8-bit characters).  Go maps are [gmap]s.  The
    Go standard library is modelled in the modules [GoStrings], [GoBytes],
    [GoPath], [Strconv] and [Http]; what lies outside the repository and is
    too large to model (gzip, md5, JSON decoding, the page renderer) is a
    field of the class [Runtime]. *)

From Stdlib Require Import ZArith Ascii DecimalString.
From stdpp Require Import base option list strings gmap.

Local Open Scope Z_scope.

(** ** Byte sequences *)

Abbreviation slen := String.length.

(** [s[:n]] *)
Fixpoint stake (n : nat) (s : string) : string :=
  match n, s with
  | S n', String c s' => String c (stake n' s')
  | _, _ => EmptyString
  end.

(** [s[n:]] *)
Fixpoint sdrop (n : nat) (s : string) : string :=
  match n, s with
  | S n', String _ s' => sdrop n' s'
  | _, _ => s
  end.

(** The line feed, [\n] in the Go sources. *)
Definition LF : string := String (ascii_of_nat 10) EmptyString.

(** ** package strings *)
Module GoStrings.

(** [strings.HasPrefix(s, prefix)] *)
Fixpoint HasPrefix (s prefix : string) {struct prefix} : bool :=
  match prefix, s with
  | EmptyString, _ => true
  | String a p', String b s' => Ascii.eqb a b && HasPrefix s' p'
  | String _ _, EmptyString => false
  end.

(** [strings.Index(s, sep)]: the position of the first occurrence of
    [sep] in [s]; Go's [-1] is [None]. *)
Fixpoint Index (s sep : string) : option nat :=
  if HasPrefix s sep then Some 0%nat
  else match s with
       | EmptyString => None
       | String _ s' => S <$> Index s' sep
       end.

(** [strings.LastIndex(s, sep)]: the position of the last occurrence. *)
Fixpoint LastIndex (s sep : string) : option nat :=
  match s with
  | EmptyString => if HasPrefix s sep then Some 0%nat else None
  | String _ s' =>
      match LastIndex s' sep with
      | Some i => Some (S i)
      | None => if HasPrefix s sep then Some 0%nat else None
      end
  end.

(** [strings.Contains(s, substr)] is [Index(s, substr) >= 0]. *)
Definition Contains (s substr : string) : bool :=
  match Index s substr with Some _ => true | None => false end.

(** [strings.Join(a, sep)] *)
Fixpoint Join (a : list string) (sep : string) : string :=
  match a with
  | [] => EmptyString
  | [x] => x
  | x :: rest => x +:+ sep +:+ Join rest sep
  end.

(** Lower-casing of one byte, for the letters [A]..[Z] only. *)
Definition lower (c : ascii) : ascii :=
  let n := nat_of_ascii c in
  if ((65 <=? n)%nat && (n <=? 90)%nat)%bool then ascii_of_nat (n + 32) else c.

(** [strings.EqualFold(s, t)]: equality under case folding.  The model
    folds the ASCII letters and compares every other byte as it is; Go
    also folds the non-ASCII letters of Unicode, which no fingerprint in
    hexadecimal contains. *)
Fixpoint EqualFold (s t : string) : bool :=
  match s, t with
  | EmptyString, EmptyString => true
  | String a s', String b t' => Ascii.eqb (lower a) (lower b) && EqualFold s' t'
  | _, _ => false
  end.

End GoStrings.

(** ** package bytes *)
Module GoBytes.

(** The loop of [genSplit]: cut at the first occurrence of [sep], keep
    what is before it, go on after it.  [fuel] bounds the number of
    cuts; [Split] gives enough. *)
Fixpoint genSplit (fuel : nat) (s sep : string) : list string :=
  match fuel with
  | O => [s]
  | S fuel' =>
      match GoStrings.Index s sep with
      | None => [s]
      | Some m => stake m s :: genSplit fuel' (sdrop (m + slen sep) s) sep
      end
  end.

(** [explode]: one slice per byte (per UTF-8 sequence in Go; the same
    for ASCII input). *)
Fixpoint explode (s : string) : list string :=
  match s with
  | EmptyString => []
  | String c s' => String c EmptyString :: explode s'
  end.

(** [bytes.Split(s, sep)]: all the slices of [s] between the
    occurrences of [sep]. *)
Definition Split (s sep : string) : list string :=
  match sep with
  | EmptyString => explode s
  | _ => genSplit (slen s) s sep
  end.

End GoBytes.

(** ** package path *)
Module GoPath.

(** [path.Split]: [i := strings.LastIndex(path, "/")], then
    [path[:i+1], path[i+1:]]. *)
Definition Split (path : string) : string * string :=
  match GoStrings.LastIndex path "/" with
  | None => (EmptyString, path)
  | Some i => (stake (S i) path, sdrop (S i) path)
  end.

(** The elements of a path: what stands between its slashes. *)
Fixpoint elements (path : string) : list string :=
  match path with
  | EmptyString => [EmptyString]
  | String c rest =>
      if Ascii.eqb c "/" then EmptyString :: elements rest
      else match elements rest with
           | e :: es => String c e :: es
           | [] => [String c EmptyString]
           end
  end.

(** One step of [Clean]'s scan, on the elements kept so far (last one
    first): empty elements and [.] are dropped, [..] removes the element
    before it, or is dropped at the root, or is kept in a relative path
    that has nothing left to remove. *)
Definition cleanStep (rooted : bool) (out : list string) (e : string) : list string :=
  if decide (e = EmptyString) then out
  else if decide (e = ".") then out
  else if decide (e = "..") then
    match out with
    | top :: below =>
        if decide (top = "..") then e :: out else below
    | [] => if rooted then out else [e]
    end
  else e :: out.

(** [path.Clean]: the shortest path equivalent to [path] by purely
    lexical processing. *)
Definition Clean (path : string) : string :=
  match path with
  | EmptyString => "."
  | String c _ =>
      let rooted := Ascii.eqb c "/" in
      let out := rev (foldl (cleanStep rooted) [] (elements path)) in
      let body := GoStrings.Join out "/" in
      if rooted then "/" +:+ body
      else match body with EmptyString => "." | _ => body end
  end.

(** [path.Join]: the elements from the first non-empty one on, joined
    with slashes and cleaned; the empty string when there is none. *)
Fixpoint Join (elem : list string) : string :=
  match elem with
  | [] => EmptyString
  | e :: rest =>
      if decide (e = EmptyString) then Join rest
      else Clean (GoStrings.Join elem "/")
  end.

End GoPath.

(** ** package strconv *)
Module Strconv.

(** [strconv.Itoa]: the decimal form of an integer. *)
Definition Itoa (n : Z) : string := NilZero.string_of_int (Z.to_int n).

End Strconv.

(** ** package net/http

    A request is its URL path and its header; a response writer records
    what the handler does to it, as [httptest.ResponseRecorder] does: the
    status code once it has been written, the header map, and the bytes of
    the body.  What the HTTP server makes of the record when it sends it
    (a sniffed content type, a chunked encoding) is no part of the program.
    Header keys are in canonical form, as the server stores them and as
    the sources write them. *)
Module Http.

Abbreviation Header := (gmap string (list string)).

(** [h.Get(key)]: the first value of the key, or the empty string. *)
Definition Get (h : Header) (key : string) : string :=
  match h !! key with
  | Some (v :: _) => v
  | _ => EmptyString
  end.

Record Request := {
  URLPath : string;
  ReqHeader : Header;
}.

Record ResponseWriter := {
  code : option Z;
  header : Header;
  body : string;
}.

Definition StatusOK : Z := 200.
Definition StatusNotModified : Z := 304.
Definition StatusInternalServerError : Z := 500.

(** A writer no handler has touched. *)
Definition NewRecorder : ResponseWriter :=
  {| code := None; header := ∅; body := EmptyString |}.

(** [w.Header().Set(key, value)] *)
Definition SetHeader (key value : string) (w : ResponseWriter) : ResponseWriter :=
  {| code := code w; header := <[key := [value]]> (header w); body := body w |}.

(** [w.WriteHeader(c)]: only the first call counts. *)
Definition WriteHeader (c : Z) (w : ResponseWriter) : ResponseWriter :=
  match code w with
  | Some _ => w
  | None => {| code := Some c; header := header w; body := body w |}
  end.

(** [w.Write(b)]: writes the status [200] first when none was written. *)
Definition Write (b : string) (w : ResponseWriter) : ResponseWriter :=
  let w' := WriteHeader StatusOK w in
  {| code := code w'; header := header w'; body := body w' +:+ b |}.

(** [b.WriteTo(w)] for a [bytes.Buffer] holding [b]: one [Write] of
    all its bytes, and no call at all when it holds none. *)
Definition WriteTo (b : string) (w : ResponseWriter) : ResponseWriter :=
  if decide (b = EmptyString) then w else Write b w.

End Http.

Import Http.

(** ** What the repository gets from outside [src/] *)

(** Modelled from the spec: the type [Page] is declared in a file that is
    not under [src/]; the handlers read its fields [Content] (the rendered
    bytes) and [Hash] (the fingerprint, used as a string). *)
Record Page := {
  Content : string;
  Hash : string;
}.

(** Modelled from the spec: a render failure is either a [*PageError],
    which carries a status code and a message, or any other [error]. *)
Inductive error :=
  | PageError (StatusCode : Z) (Message : string)
  | otherError (text : string).

(** [type PageIndex struct], one entry of an index descriptor. *)
Record PageIndex := {
  Name : string;
  Date : Z;
  Summary : string;
  Tags : list string;
}.

(** The collaborators of the program.  [Disk] is the state of the file
    system at some moment. *)
Class Runtime := {
  Disk : Type;
  (** [ioutil.ReadFile]: the bytes of a file, or [None] for an error. *)
  ReadFile : Disk → string → option string;
  (** Modelled from the spec: [GetPage] is a function of this repository
      that is not under [src/]; given an absolute source path it returns
      the rendered page or a failure. *)
  GetPage : Disk → string → Page + error;
  (** What a [gzip.Writer] has put into its buffer once it is closed, as
      a function of all the bytes written to it. *)
  gzip : string → string;
  (** [md5.New()], [Write], [Sum(nil)]. *)
  md5sum : string → string;
  (** [json.NewDecoder(f).Decode(&pages)] on the bytes of a descriptor. *)
  jsonDecode : string → option (list PageIndex);
}.

(** A startup step either leaves the process running or ends it with
    [log.Fatal]. *)
Inductive outcome (A : Type) :=
  | Running (a : A)
  | Fatal (msg : string).
Arguments Running {A} a.
Arguments Fatal {A} msg.

Global Instance outcome_ret : MRet outcome := @Running.
Global Instance outcome_bind : MBind outcome := λ A B f m,
  match m with
  | Running a => f a
  | Fatal msg => Fatal msg
  end.

(** An entry of the content tree as [filepath.Walk] finds it: a regular
    file with its name and its bytes ([None] when it cannot be opened), or
    a directory with its name and its entries in the order [Walk] visits
    them. *)
#[warnings="-register-all"] Inductive node :=
  | File (name : string) (content : option string)
  | Dir (name : string) (children : list node).

Definition nodeName (n : node) : string :=
  match n with
  | File name _ => name
  | Dir name _ => name
  end.

(** [compress/gzip] writing into a [bytes.Buffer]: the writer collects
    what it is given, [Close] leaves the compressed stream in the buffer. *)
Module Gzip.
Section Writer.
Context `{RT : Runtime}.
Definition Writer := string.
Definition NewWriter : Writer := EmptyString.
Definition Write (p : string) (gz : Writer) : Writer := gz +:+ p.
Definition Close (gz : Writer) (b : string) : string := b +:+ gzip gz.
End Writer.
End Gzip.

(** [fmt.Fprintf(b, errFmt, msg)] with the [errFmt] of [writeError]:
    [%v] prints a string as it is. *)
Definition errFmt (msg : string) : string :=
  "<h2>Oops! We've hit a bit of a problem...</h2><p>" +:+ msg +:+ "</p>".

(** The placeholder of the template. *)
Definition placeholder : string := "{{content}}".

(** ** The revision with the index cache: [src/unnamed/part_000] *)
Module Part000.

(** The flags. *)
Record Options := {
  optAddr : string;
  optPath : string;
  optStaticDir : string;
  optTemplate : string;
  optHomeDir : string;
  optDefault : string;
  optExt : string;
}.

(** The values the flags have when none is given. *)
Definition flagDefaults : Options :=
  {| optAddr := ":8000"; optPath := "."; optStaticDir := "public";
     optTemplate := "template.html"; optHomeDir := EmptyString;
     optDefault := "index"; optExt := "md" |}.

(** The package-level variables. *)
Record Globals := {
  root : string;
  cache : gmap string Page;
  indexCache : gmap string (list PageIndex);
  tmpl : list string;
  tmplHash : string;
}.

(** What serving one request leaves behind: the variables, the response
    ([None] when the handler panicked on an index out of range), and the
    paths [GetPage] was called with, in order. *)
Record Served := {
  globals : Globals;
  response : option ResponseWriter;
  rendered : list string;
}.

(** The process: its variables, the number of signals held by the
    channel [c] of [setupSignals], which has room for one, and whether
    the goroutine of [setupSignals] still waits on that channel. *)
Record Process := {
  vars : Globals;
  sigchan : nat;
  listening : bool;
}.

Section Program.
Context `{RT : Runtime} (opts : Options).

(** [func hash] *)
Definition hash (value : string) : string := md5sum value.

(** [func setupTemplate].  [filepath.Join] is [path.Join] where the
    separator is the slash. *)
Definition setupTemplate (disk : Disk) (g : Globals) : outcome Globals :=
  let path := GoPath.Join [root g; optTemplate opts] in
  match ReadFile disk path with
  | None => Fatal "Could not read template: "
  | Some b =>
      let tmplHash' := hash b in
      let tmpl' := GoBytes.Split b placeholder in
      if decide (length tmpl' ≠ 2%nat) then
        Fatal "Template was not in a valid format"
      else
        Running {| root := root g; cache := ∅; indexCache := indexCache g;
                   tmpl := tmpl'; tmplHash := tmplHash' |}
  end.

(** The function [setupIndexes] gives to [filepath.Walk], with the
    walk itself: a directory whose name starts with a dot is skipped
    with all it holds, a file named as the default document with
    [.json] is decoded and stored under its path. *)
Fixpoint walk (path : string) (n : node)
    (ic : gmap string (list PageIndex)) : outcome (gmap string (list PageIndex)) :=
  match n with
  | Dir name children =>
      if GoStrings.HasPrefix name "." then Running ic
      else
        (fix each (l : list node) (ic : gmap string (list PageIndex)) :=
           match l with
           | [] => Running ic
           | c :: l' =>
               match walk (GoPath.Join [path; nodeName c]) c ic with
               | Running ic' => each l' ic'
               | Fatal msg => Fatal msg
               end
           end) children ic
  | File name content =>
      if decide (name = optDefault opts +:+ ".json") then
        match content with
        | None => Fatal ("Couldn't open " +:+ path +:+ " for reading")
        | Some bytes =>
            match jsonDecode bytes with
            | None => Fatal ("Couldn't parse " +:+ path +:+ " as an index file")
            | Some pages => Running (<[path := pages]> ic)
            end
        end
      else Running ic
  end.

(** [func setupIndexes], on the tree found at [root]. *)
Definition setupIndexes (tree : node) (g : Globals) : outcome Globals :=
  ic ← walk (root g) tree ∅;
  Running {| root := root g; cache := cache g; indexCache := ic;
             tmpl := tmpl g; tmplHash := tmplHash g |}.

(** [func main]: the flags are parsed, [absPath] is what
    [filepath.Abs] returns for the content path ([None] for an error),
    the template and the indexes are set up, the listener for the
    signal is started; then the process serves.  [setupStaticDir] only
    registers the handlers of the static files. *)
Definition main (absPath : option string) (disk : Disk) (tree : node) : outcome Process :=
  match absPath with
  | None => Fatal "Could not get the absolute path"
  | Some r =>
      let g := {| root := r; cache := ∅; indexCache := ∅;
                  tmpl := []; tmplHash := EmptyString |} in
      g ← setupTemplate disk g;
      g ← setupIndexes tree g;
      Running {| vars := g; sigchan := 0; listening := true |}
  end.

(** [signal.Notify(c, syscall.SIGUSR1)] at the arrival of a signal: it
    is sent to [c] without blocking, and dropped when [c] is full. *)
Definition notify (p : Process) : Process :=
  {| vars := vars p;
     sigchan := if (sigchan p <? 1)%nat then S (sigchan p) else sigchan p;
     listening := listening p |}.

(** The goroutine of [setupSignals]: [<-c], then [setupTemplate], then
    it ends.  [None] when it cannot take a step: the channel is empty,
    or the goroutine has ended.  The line it logs is left out. *)
Definition listener (disk : Disk) (p : Process) : option (outcome Process) :=
  if listening p && (0 <? sigchan p)%nat then
    Some (g ← setupTemplate disk (vars p);
          Running {| vars := g; sigchan := pred (sigchan p); listening := false |})
  else None.

(** The first lines of [renderPage]: from the URL path to the
    candidate path [abs]. *)
Definition candidate (g : Globals) (urlPath : string) : string :=
  let '(p, file) := GoPath.Split urlPath in
  let p := if decide (p = EmptyString) then optHomeDir opts else p in
  let file := if decide (file = EmptyString) then optDefault opts else file in
  GoPath.Join [root g; p; file].

(** One pass of the loop of [renderIndex]. *)
Definition indexEntry (e : PageIndex) : string :=
  "<h3>" +:+ Name e +:+ "</h3>" +:+ LF +:+ "<p>" +:+ Summary e +:+ "</p>" +:+ LF.

(** [func renderIndex] *)
Definition renderIndex (g : Globals) (w : ResponseWriter) (r : Request)
    (pIdx : list PageIndex) : option ResponseWriter :=
  t0 ← tmpl g !! 0%nat;
  let w := Write t0 w in
  let w := Write ("<h2>Blog</h2>" +:+ LF) w in
  let w := foldl (λ w e, Write (indexEntry e) w) w pIdx in
  t1 ← tmpl g !! 1%nat;
  Some (Write t1 w).

(** [func write].  The file declares it with the parameters [bytes]
    and [hash], reads [page.Content] in its body and is called with
    the page: [bytes] is the page's [Content], [hash] its [Hash]. *)
Definition write (g : Globals) (w : ResponseWriter) (r : Request)
    (bytes hash : string) : option ResponseWriter :=
  let hashed := (0 <? slen hash)%nat in
  if hashed && GoStrings.EqualFold (Get (ReqHeader r) "If-None-Match") hash then
    Some (WriteHeader StatusNotModified w)
  else
    let w := if hashed then SetHeader "Etag" hash w else w in
    let w := SetHeader "Content-Type" "text/html; charset=UTF-8" w in
    if GoStrings.Contains (Get (ReqHeader r) "Accept-Encoding") "gzip" then
      let gz := Gzip.NewWriter in
      t0 ← tmpl g !! 0%nat;
      let gz := Gzip.Write t0 gz in
      let gz := Gzip.Write bytes gz in
      t1 ← tmpl g !! 1%nat;
      let gz := Gzip.Write t1 gz in
      let b := Gzip.Close gz EmptyString in
      let w := SetHeader "Content-Encoding" "gzip" w in
      let w := SetHeader "Content-Length" (Strconv.Itoa (Z.of_nat (slen b))) w in
      Some (WriteTo b w)
    else
      t0 ← tmpl g !! 0%nat;
      t1 ← tmpl g !! 1%nat;
      let n := (slen t0 + slen bytes + slen t1)%nat in
      let w := SetHeader "Content-Length" (Strconv.Itoa (Z.of_nat n)) w in
      Some (Write t1 (Write bytes (Write t0 w))).

(** [func writeError] *)
Definition writeError (g : Globals) (w : ResponseWriter) (r : Request)
    (err : error) : option ResponseWriter :=
  let w := SetHeader "Content-Type" "text/html; charset=UTF-8" w in
  t0 ← tmpl g !! 0%nat;
  let b := t0 in
  let '(w, b) :=
    match err with
    | PageError StatusCode Message =>
        (WriteHeader StatusCode w, b +:+ errFmt Message)
    | otherError _ =>
        (WriteHeader StatusInternalServerError w, b +:+ errFmt "Page not available")
    end in
  t1 ← tmpl g !! 1%nat;
  Some (WriteTo (b +:+ t1) w).

(** [func renderPage], serving request [r] into [w] while the file
    system is [disk].  The line it logs on a failure is left out. *)
Definition renderPage (disk : Disk) (g : Globals) (w : ResponseWriter)
    (r : Request) : Served :=
  let abs := candidate g (URLPath r) in
  match indexCache g !! (abs +:+ ".json") with
  | Some pIdx =>
      {| globals := g; response := renderIndex g w r pIdx; rendered := [] |}
  | None =>
      let abs := abs +:+ "." +:+ optExt opts in
      match cache g !! abs with
      | Some page =>
          {| globals := g;
             response := write g w r (Content page) (Hash page);
             rendered := [] |}
      | None =>
          match GetPage disk abs with
          | inr err =>
              {| globals := g; response := writeError g w r err;
                 rendered := [abs] |}
          | inl page =>
              let g' := {| root := root g; cache := <[abs := page]> (cache g);
                           indexCache := indexCache g; tmpl := tmpl g;
                           tmplHash := tmplHash g |} in
              {| globals := g';
                 response := write g' w r (Content page) (Hash page);
                 rendered := [abs] |}
          end
      end
  end.

End Program.

End Part000.

(** ** The revision with the debug flag: [src/main.go] *)
Module MainGo.

(** The flags.  They are declared by [parseOptions], outside [src/];
    these are the ones the file reads. *)
Record Options := {
  optAddr : string;
  optPath : string;
  optStaticDir : string;
  optTemplate : string;
  optHomeDir : string;
  optDefault : string;
  optExt : string;
  optDebug : bool;
}.

(** The package-level variables. *)
Record Globals := {
  root : string;
  cache : gmap string Page;
  tmpl : list string;
}.

Record Served := {
  globals : Globals;
  response : option ResponseWriter;
  rendered : list string;
}.

Section Program.
Context `{RT : Runtime} (opts : Options).

(** [func setupTemplate] *)
Definition setupTemplate (disk : Disk) (g : Globals) : outcome Globals :=
  let path := GoPath.Join [root g; optTemplate opts] in
  match ReadFile disk path with
  | None => Fatal "Could not read template: "
  | Some b =>
      let tmpl' := GoBytes.Split b placeholder in
      if decide (length tmpl' ≠ 2%nat) then
        Fatal "Template was not in a valid format"
      else
        Running {| root := root g; cache := cache g; tmpl := tmpl' |}
  end.

(** [func main], up to the point where it serves. *)
Definition main (absPath : option string) (disk : Disk) : outcome Globals :=
  match absPath with
  | None => Fatal "Could not get the absolute path"
  | Some r => setupTemplate disk {| root := r; cache := ∅; tmpl := [] |}
  end.

(** [func write] *)
Definition write (g : Globals) (w : ResponseWriter) (r : Request)
    (page : Page) : option ResponseWriter :=
  if GoStrings.EqualFold (Get (ReqHeader r) "If-None-Match") (Hash page) then
    Some (WriteHeader StatusNotModified w)
  else
    let w := SetHeader "Etag" (Hash page) w in
    let w := SetHeader "Content-Type" "text/html; charset=UTF-8" w in
    if GoStrings.Contains (Get (ReqHeader r) "Accept-Encoding") "gzip" then
      let gz := Gzip.NewWriter in
      t0 ← tmpl g !! 0%nat;
      let gz := Gzip.Write t0 gz in
      let gz := Gzip.Write (Content page) gz in
      t1 ← tmpl g !! 1%nat;
      let gz := Gzip.Write t1 gz in
      let b := Gzip.Close gz EmptyString in
      let w := SetHeader "Content-Encoding" "gzip" w in
      let w := SetHeader "Content-Length" (Strconv.Itoa (Z.of_nat (slen b))) w in
      Some (WriteTo b w)
    else
      t0 ← tmpl g !! 0%nat;
      t1 ← tmpl g !! 1%nat;
      let n := (slen t0 + slen (Content page) + slen t1)%nat in
      let w := SetHeader "Content-Length" (Strconv.Itoa (Z.of_nat n)) w in
      Some (Write t1 (Write (Content page) (Write t0 w))).

(** [func writeError] *)
Definition writeError (g : Globals) (w : ResponseWriter) (r : Request)
    (err : error) : option ResponseWriter :=
  let w := SetHeader "Content-Type" "text/html; charset=UTF-8" w in
  t0 ← tmpl g !! 0%nat;
  let b := t0 in
  let '(w, b) :=
    match err with
    | PageError StatusCode Message =>
        (WriteHeader StatusCode w, b +:+ errFmt Message)
    | otherError _ =>
        (WriteHeader StatusInternalServerError w, b +:+ errFmt "Page not available")
    end in
  t1 ← tmpl g !! 1%nat;
  Some (WriteTo (b +:+ t1) w).

(** The first lines of [renderer]: from the URL path to [abs]. *)
Definition documentPath (g : Globals) (urlPath : string) : string :=
  let '(p, file) := GoPath.Split urlPath in
  let p := if decide (p = EmptyString) then optHomeDir opts else p in
  let file := if decide (file = EmptyString) then optDefault opts else file in
  GoPath.Join [root g; p; file] +:+ "." +:+ optExt opts.

(** [func renderer].  The line it logs on a failure is left out. *)
Definition renderer (disk : Disk) (g : Globals) (w : ResponseWriter)
    (r : Request) : Served :=
  let abs := documentPath g (URLPath r) in
  match cache g !! abs with
  | Some page =>
      {| globals := g; response := write g w r page; rendered := [] |}
  | None =>
      match GetPage disk abs with
      | inr err =>
          {| globals := g; response := writeError g w r err; rendered := [abs] |}
      | inl page =>
          let g' := if optDebug opts then g
                    else {| root := root g; cache := <[abs := page]> (cache g);
                            tmpl := tmpl g |} in
          {| globals := g'; response := write g' w r page; rendered := [abs] |}
      end
  end.

End Program.

End MainGo.

(** ** Notions the properties are stated with *)

(** The blocks of the entries of an index, one after the other. *)
Definition listing (pIdx : list PageIndex) : string :=
  foldr (λ e rest, Part000.indexEntry e +:+ rest) EmptyString pIdx.

(** The number of positions of [s] at which [sep] occurs. *)
Fixpoint occurrences (sep s : string) : nat :=
  ((if GoStrings.HasPrefix s sep then 1 else 0) +
   match s with
   | EmptyString => 0
   | String _ s' => occurrences sep s'
   end)%nat.

(** The document path of a request in the revision with the indexes. *)
Definition docPath (opts : Part000.Options) (g : Part000.Globals) (r : Request) : string :=
  Part000.candidate opts g (URLPath r) +:+ "." +:+ Part000.optExt opts.

(** The status code of a writer once something was written to it. *)
Definition written (w : ResponseWriter) : option Z :=
  Some (default StatusOK (code w)).

(** ** The life of the process

    After [main] the process serves requests and, in its goroutine,
    waits for the signal.  Its life is taken as a sequence of events,
    each one done before the next begins: a request served by
    [renderPage] with a fresh response writer, or the arrival of the
    signal, which the goroutine takes at once if it still waits. *)
Section Life.
Context `{RT : Runtime} (opts : Part000.Options).

Inductive event :=
  | Req (disk : Disk) (r : Request)
  | Sig (disk : Disk).

(** One event: the process after it, and what was served if it was a
    request. *)
Definition stepProcess (p : Part000.Process) (e : event)
    : outcome (Part000.Process * list Part000.Served) :=
  match e with
  | Req disk r =>
      let s := Part000.renderPage opts disk (Part000.vars p) NewRecorder r in
      Running ({| Part000.vars := Part000.globals s;
                  Part000.sigchan := Part000.sigchan p;
                  Part000.listening := Part000.listening p |}, [s])
  | Sig disk =>
      let p := Part000.notify p in
      match Part000.listener opts disk p with
      | Some after => p' ← after; Running (p', [])
      | None => Running (p, [])
      end
  end.

(** A sequence of events: the process at its end and all that was
    served, in order; [Fatal] as soon as one event ends the process. *)
Fixpoint runProcess (p : Part000.Process) (es : list event)
    : outcome (Part000.Process * list Part000.Served) :=
  match es with
  | [] => Running (p, [])
  | e :: es' =>
      '(p', served) ← stepProcess p e;
      '(p'', served') ← runProcess p' es';
      Running (p'', served ++ served')
  end.

Definition isReq (e : event) : Prop :=
  match e with Req _ _ => True | Sig _ => False end.

Definition isSig (e : event) : Prop :=
  match e with Req _ _ => False | Sig _ => True end.

(** The index descriptors [walk] gets to: [visible path n fp content]
    says that, walking [n] found at [path], the file at [fp] with the
    given content is named as a descriptor and lies under no directory
    whose name starts with a dot. *)
Inductive visible : string → node → string → option string → Prop :=
  | visible_file path name content :
      name = Part000.optDefault opts +:+ ".json" →
      visible path (File name content) path content
  | visible_dir path name children c fp content :
      GoStrings.HasPrefix name "." = false →
      c ∈ children →
      visible (GoPath.Join [path; nodeName c]) c fp content →
      visible path (Dir name children) fp content.

(** What a descriptor must be for the walk to go on: a file that can
    be opened and whose bytes the decoder accepts. *)
Definition decodes (ct : option string) : Prop :=
  ∃ bytes pages, ct = Some bytes ∧ jsonDecode bytes = Some pages.

End Life.

(** Induction on a tree of files, with the property known for all
    entries of a directory. *)
Definition node_forall_ind (P : node → Prop)
    (Hfile : ∀ name content, P (File name content))
    (Hdir : ∀ name children, Forall P children → P (Dir name children))
    : ∀ n, P n :=
  fix go (n : node) : P n :=
    match n with
    | File name content => Hfile name content
    | Dir name children =>
        Hdir name children
          ((fix all (l : list node) : Forall P l :=
              match l with
              | [] => @List.Forall_nil node P
              | c :: l' => @List.Forall_cons node P c l' (go c) (all l')
              end) children)
    end.

(** ** A small site to run the program on *)
Module Demo.

(** A file system as a map from paths to bytes; a renderer that wraps
    the source in a paragraph, reports a missing file as a [PageError]
    and an empty one as an error of another kind; a codec that marks
    its output instead of compressing it. *)
Definition render (d : gmap string string) (path : string) : Page + error :=
  match d !! path with
  | None => inr (PageError 404 "Page not found")
  | Some EmptyString => inr (otherError "empty document")
  | Some src => inl {| Content := "<p>" +:+ src +:+ "</p>"; Hash := "c0ffee" |}
  end.

Definition mark (s : string) : string := "gz:" +:+ s.

Definition unmark (s : string) : option string :=
  if GoStrings.HasPrefix s "gz:" then Some (sdrop 3 s) else None.

Definition postA : PageIndex :=
  {| Name := "Post A"; Date := 0; Summary := "S1"; Tags := [] |}.
Definition postB : PageIndex :=
  {| Name := "Post B"; Date := 0; Summary := "S2"; Tags := [] |}.

Definition decode (s : string) : option (list PageIndex) :=
  if decide (s = "A,B") then Some [postA; postB]
  else if decide (s = EmptyString) then Some []
  else None.

Definition runtime : Runtime :=
  {| Disk := gmap string string;
     ReadFile := λ d path, d !! path;
     GetPage := render;
     gzip := mark;
     md5sum := λ s, "md5:" +:+ s;
     jsonDecode := decode |}.

Definition opts : Part000.Options :=
  {| Part000.optAddr := ":8000"; Part000.optPath := "/srv/www";
     Part000.optStaticDir := "public"; Part000.optTemplate := "template.html";
     Part000.optHomeDir := "blog"; Part000.optDefault := "index";
     Part000.optExt := "md" |}.

Definition template : string := "<body>{{content}}</body>".
Definition template2 : string := "<main>{{content}}</main>".

Definition disk : gmap string string :=
  <["/srv/www/template.html" := template]>
    (<["/srv/www/about.md" := "About us"]>
       (<["/srv/www/empty.md" := EmptyString]> ∅)).

(** The same site after the template and a document were edited. *)
Definition disk2 : gmap string string :=
  <["/srv/www/template.html" := template2]>
    (<["/srv/www/about.md" := "About them"]> ∅).

Definition tree : node :=
  Dir "www" [ File "about.md" (Some "About us");
              Dir ".git" [ File "index.json" (Some "not json") ];
              Dir "blog" [ File "index.json" (Some "A,B") ];
              File "template.html" (Some template) ].

(** The variables once the template is loaded, with an empty cache. *)
Definition site : Part000.Globals :=
  {| Part000.root := "/srv/www"; Part000.cache := ∅;
     Part000.indexCache := <["/srv/www/blog/index.json" := [postA; postB]]> ∅;
     Part000.tmpl := ["<body>"; "</body>"];
     Part000.tmplHash := "md5:<body>{{content}}</body>" |}.

Definition get (urlPath : string) (h : Header) : Request :=
  {| URLPath := urlPath; ReqHeader := h |}.

(** The debug-flag revision on the same site. *)
Definition mainOpts (debug : bool) : MainGo.Options :=
  {| MainGo.optAddr := ":8000"; MainGo.optPath := "/srv/www";
     MainGo.optStaticDir := "public"; MainGo.optTemplate := "template.html";
     MainGo.optHomeDir := "blog"; MainGo.optDefault := "index";
     MainGo.optExt := "md"; MainGo.optDebug := debug |}.

Definition mainSite : MainGo.Globals :=
  {| MainGo.root := "/srv/www"; MainGo.cache := ∅;
     MainGo.tmpl := ["<body>"; "</body>"] |}.

(** The page the renderer makes of [about.md], and the site with that
    page in its cache. *)
Definition aboutPage : Page :=
  {| Content := "<p>About us</p>"; Hash := "c0ffee" |}.

Definition warmSite : Part000.Globals :=
  {| Part000.root := "/srv/www";
     Part000.cache := <["/srv/www/about.md" := aboutPage]> ∅;
     Part000.indexCache := <["/srv/www/blog/index.json" := [postA; postB]]> ∅;
     Part000.tmpl := ["<body>"; "</body>"];
     Part000.tmplHash := "md5:<body>{{content}}</body>" |}.

(** A site whose template has the placeholder twice. *)
Definition brokenDisk : gmap string string :=
  <["/srv/www/template.html" := "<body>{{content}}{{content}}</body>"]> ∅.

(** Request headers: a conditional request that accepts gzip, one that
    only accepts gzip, one whose [If-None-Match] is there and empty. *)
Definition conditionalGzip : Header :=
  <["If-None-Match" := ["C0FFEE"]]> (<["Accept-Encoding" := ["gzip, deflate"]]> ∅).
Definition acceptGzip : Header := <["Accept-Encoding" := ["gzip, deflate"]]> ∅.

(** The listing of the two posts. *)
Definition blogListing : string :=
  "<body><h2>Blog</h2>" +:+ LF +:+
  "<h3>Post A</h3>" +:+ LF +:+ "<p>S1</p>" +:+ LF +:+
  "<h3>Post B</h3>" +:+ LF +:+ "<p>S2</p>" +:+ LF +:+ "</body>".

End Demo.

(** * Properties *)

(** ** The library model at work *)

Example path_split_root : GoPath.Split "/" = ("/", "").
Proof. reflexivity. Qed.
Example path_split_plain : GoPath.Split "about" = ("", "about").
Proof. reflexivity. Qed.
Example path_split_dir : GoPath.Split "/blog/post" = ("/blog/", "post").
Proof. reflexivity. Qed.
Example path_join_root : GoPath.Join ["/srv/www"; "/"; "index"] = "/srv/www/index".
Proof. vm_compute. reflexivity. Qed.
Example path_join_dots : GoPath.Join ["/srv/www"; "/a/../b/./"; "c"] = "/srv/www/b/c".
Proof. vm_compute. reflexivity. Qed.
Example path_clean_rel : GoPath.Clean "../../a/.." = "../..".
Proof. vm_compute. reflexivity. Qed.
Example bytes_split_two : GoBytes.Split "<a>{{content}}<b>" placeholder = ["<a>"; "<b>"].
Proof. vm_compute. reflexivity. Qed.
Example itoa_120 : Strconv.Itoa 120 = "120".
Proof. reflexivity. Qed.
Example equal_fold_hex : GoStrings.EqualFold "ABCdef09" "abcDEF09" = true.
Proof. reflexivity. Qed.

Example demo_main :
  Part000.main (RT := Demo.runtime) Demo.opts (Some "/srv/www") Demo.disk Demo.tree
  = Running {| Part000.vars := Demo.site; Part000.sigchan := 0;
               Part000.listening := true |}.
Proof. vm_compute. reflexivity. Qed.

(** ** Byte sequences and the response writer *)

Lemma sapp_cons c s t : String c s +:+ t = String c (s +:+ t).
Proof. reflexivity. Qed.

Lemma sapp_nil_l s : EmptyString +:+ s = s.
Proof. reflexivity. Qed.

Lemma sapp_nil_r s : s +:+ EmptyString = s.
Proof. induction s as [|c s IH]; [done|]. by rewrite sapp_cons, IH. Qed.

Lemma sapp_assoc s t u : (s +:+ t) +:+ u = s +:+ t +:+ u.
Proof. induction s as [|c s IH]; [done|]. by rewrite !sapp_cons, IH. Qed.

Lemma slen_app s t : slen (s +:+ t) = (slen s + slen t)%nat.
Proof. induction s as [|c s IH]; [done|]. rewrite sapp_cons. simpl. by rewrite IH. Qed.

Lemma Write_spec b w : Write b w =
  {| code := written w; header := header w; body := body w +:+ b |}.
Proof. unfold Write, WriteHeader, written. by destruct w as [[c|] h bd]. Qed.

Lemma written_Write b w : written (Write b w) = written w.
Proof. rewrite Write_spec. unfold written. simpl. by destruct (code w). Qed.

Lemma Write_Write a b w : Write b (Write a w) = Write (a +:+ b) w.
Proof.
  rewrite (Write_spec b), written_Write, !Write_spec. simpl.
  by rewrite sapp_assoc.
Qed.

Lemma Write_entries (pIdx : list PageIndex) w :
  foldl (λ w e, Write (Part000.indexEntry e) w) w pIdx
  = match pIdx with [] => w | _ => Write (listing pIdx) w end.
Proof.
  revert w. induction pIdx as [|e l IH]; intros w; [done|].
  simpl. rewrite IH. destruct l as [|e' l]; simpl.
  - by rewrite sapp_nil_r.
  - by rewrite Write_Write.
Qed.

Lemma Write_entries_after a (pIdx : list PageIndex) w :
  foldl (λ w e, Write (Part000.indexEntry e) w) (Write a w) pIdx
  = Write (a +:+ listing pIdx) w.
Proof.
  rewrite Write_entries. destruct pIdx; simpl.
  - by rewrite sapp_nil_r.
  - by rewrite Write_Write.
Qed.

(** ** The index listing *)

Section IndexFacts.
Context `{RT : Runtime} (opts : Part000.Options).

(** What [renderIndex] writes when both fragments are there. *)
Lemma renderIndex_spec g w r pIdx pre suf :
  Part000.tmpl g = [pre; suf] →
  Part000.renderIndex g w r pIdx
  = Some (Write (pre +:+ ("<h2>Blog</h2>" +:+ LF) +:+ listing pIdx +:+ suf) w).
Proof.
  intros Ht. unfold Part000.renderIndex. rewrite Ht. simpl.
  by rewrite Write_entries_after, !Write_Write.
Qed.

(** C9: the listing of an index is the template prefix, the heading,
    one name/summary block per entry in the order of the list, and the
    template suffix. *)
Theorem renderIndex_lists_in_order g w r pIdx pre suf :
  Part000.tmpl g = [pre; suf] →
  ∃ w', Part000.renderIndex g w r pIdx = Some w' ∧
        body w' = body w +:+ pre +:+ "<h2>Blog</h2>" +:+ LF +:+
                  listing pIdx +:+ suf ∧
        ∀ e rest, listing (e :: rest) =
                  "<h3>" +:+ Name e +:+ "</h3>" +:+ LF +:+
                  "<p>" +:+ Summary e +:+ "</p>" +:+ LF +:+ listing rest.
Proof.
  intros Ht. eexists. split; [by apply renderIndex_spec|]. split.
  - rewrite Write_spec. simpl. by rewrite !sapp_assoc.
  - intros e rest. simpl. unfold Part000.indexEntry. by rewrite !sapp_assoc.
Qed.



End IndexFacts.

(** ** The page cache *)

Section CacheFacts.
Context `{RT : Runtime}.

Lemma candidate_root opts g g' u :
  Part000.root g = Part000.root g' →
  Part000.candidate opts g u = Part000.candidate opts g' u.
Proof. unfold Part000.candidate. by intros ->. Qed.

(** A first request for a document that is neither an index nor in the
    cache renders it and stores the page; the next one is answered from
    the cache, whatever the file system has become. *)
Lemma renderPage_first_then_cached opts disk1 disk2 g w r page :
  Part000.indexCache g !! (Part000.candidate opts g (URLPath r) +:+ ".json") = None →
  Part000.cache g !! docPath opts g r = None →
  GetPage disk1 (docPath opts g r) = inl page →
  let s1 := Part000.renderPage opts disk1 g w r in
  let s2 := Part000.renderPage opts disk2 (Part000.globals s1) w r in
  Part000.rendered s1 = [docPath opts g r] ∧
  Part000.cache (Part000.globals s1) !! docPath opts g r = Some page ∧
  Part000.response s1
    = Part000.write (Part000.globals s1) w r (Content page) (Hash page) ∧
  Part000.response s2 = Part000.response s1 ∧
  Part000.rendered s2 = [] ∧
  Part000.globals s2 = Part000.globals s1.
Proof.
  intros Hidx Hmiss Hget s1 s2.
  assert (Hs1 : s1 =
    {| Part000.globals :=
         {| Part000.root := Part000.root g;
            Part000.cache := <[docPath opts g r := page]> (Part000.cache g);
            Part000.indexCache := Part000.indexCache g;
            Part000.tmpl := Part000.tmpl g;
            Part000.tmplHash := Part000.tmplHash g |};
       Part000.response :=
         Part000.write
           {| Part000.root := Part000.root g;
              Part000.cache := <[docPath opts g r := page]> (Part000.cache g);
              Part000.indexCache := Part000.indexCache g;
              Part000.tmpl := Part000.tmpl g;
              Part000.tmplHash := Part000.tmplHash g |}
           w r (Content page) (Hash page);
       Part000.rendered := [docPath opts g r] |}).
  { subst s1. unfold Part000.renderPage. rewrite Hidx.
    fold (docPath opts g r). by rewrite Hmiss, Hget. }
  assert (Hs2 : s2 =
    {| Part000.globals := Part000.globals s1;
       Part000.response := Part000.response s1;
       Part000.rendered := [] |}).
  { subst s2. rewrite Hs1. unfold Part000.renderPage.
    rewrite (candidate_root opts _ g) by done. simpl. rewrite Hidx.
    fold (docPath opts g r). by rewrite lookup_insert_eq. }
  rewrite Hs2, Hs1. simpl. by rewrite lookup_insert_eq.
Qed.

(** The same in the revision with the debug flag, when the flag is off. *)
Lemma renderer_first_then_cached opts disk1 disk2 g w r page :
  MainGo.optDebug opts = false →
  MainGo.cache g !! MainGo.documentPath opts g (URLPath r) = None →
  GetPage disk1 (MainGo.documentPath opts g (URLPath r)) = inl page →
  let s1 := MainGo.renderer opts disk1 g w r in
  let s2 := MainGo.renderer opts disk2 (MainGo.globals s1) w r in
  MainGo.rendered s1 = [MainGo.documentPath opts g (URLPath r)] ∧
  MainGo.cache (MainGo.globals s1) !! MainGo.documentPath opts g (URLPath r)
    = Some page ∧
  MainGo.response s1 = MainGo.write (MainGo.globals s1) w r page ∧
  MainGo.response s2 = MainGo.response s1 ∧
  MainGo.rendered s2 = [] ∧
  MainGo.globals s2 = MainGo.globals s1.
Proof.
  intros Hdbg Hmiss Hget s1 s2.
  assert (Hs1 : s1 =
    {| MainGo.globals :=
         {| MainGo.root := MainGo.root g;
            MainGo.cache :=
              <[MainGo.documentPath opts g (URLPath r) := page]> (MainGo.cache g);
            MainGo.tmpl := MainGo.tmpl g |};
       MainGo.response :=
         MainGo.write
           {| MainGo.root := MainGo.root g;
              MainGo.cache :=
                <[MainGo.documentPath opts g (URLPath r) := page]> (MainGo.cache g);
              MainGo.tmpl := MainGo.tmpl g |} w r page;
       MainGo.rendered := [MainGo.documentPath opts g (URLPath r)] |}).
  { subst s1. unfold MainGo.renderer. by rewrite Hmiss, Hget, Hdbg. }
  assert (Hs2 : s2 =
    {| MainGo.globals := MainGo.globals s1;
       MainGo.response := MainGo.response s1;
       MainGo.rendered := [] |}).
  { subst s2. rewrite Hs1. unfold MainGo.renderer, MainGo.documentPath. simpl.
    fold (MainGo.documentPath opts g (URLPath r)). by rewrite lookup_insert_eq. }
  rewrite Hs2, Hs1. simpl. by rewrite lookup_insert_eq.
Qed.

(** With the debug flag on, nothing is stored and every request for
    the document calls the renderer. *)
Lemma renderer_debug_never_caches opts disk1 disk2 g w r page :
  MainGo.optDebug opts = true →
  MainGo.cache g !! MainGo.documentPath opts g (URLPath r) = None →
  GetPage disk1 (MainGo.documentPath opts g (URLPath r)) = inl page →
  let s1 := MainGo.renderer opts disk1 g w r in
  let s2 := MainGo.renderer opts disk2 (MainGo.globals s1) w r in
  MainGo.rendered s1 = [MainGo.documentPath opts g (URLPath r)] ∧
  MainGo.globals s1 = g ∧
  MainGo.response s1 = MainGo.write g w r page ∧
  MainGo.rendered s2 = [MainGo.documentPath opts g (URLPath r)].
Proof.
  intros Hdbg Hmiss Hget s1 s2.
  assert (Hs1 : s1 =
    {| MainGo.globals := g; MainGo.response := MainGo.write g w r page;
       MainGo.rendered := [MainGo.documentPath opts g (URLPath r)] |}).
  { subst s1. unfold MainGo.renderer. by rewrite Hmiss, Hget, Hdbg. }
  subst s2. rewrite Hs1. simpl. repeat split.
  unfold MainGo.renderer. rewrite Hmiss.
  by destruct (GetPage disk2 (MainGo.documentPath opts g (URLPath r))).
Qed.

(** C1, as the code has it: a first successful request for a document
    that is not in the page cache renders it; the page is stored, and a
    second identical request is answered from the cache with the same
    bytes and without a call of the renderer, in [renderPage] and, when
    the debug flag is off, in [renderer]; with the debug flag on
    [renderer] stores nothing and renders again. *)
Theorem first_request_caches_unless_debug :
  (∀ opts disk1 disk2 g w r page,
     Part000.indexCache g !! (Part000.candidate opts g (URLPath r) +:+ ".json") = None →
     Part000.cache g !! docPath opts g r = None →
     GetPage disk1 (docPath opts g r) = inl page →
     let s1 := Part000.renderPage opts disk1 g w r in
     let s2 := Part000.renderPage opts disk2 (Part000.globals s1) w r in
     Part000.rendered s1 = [docPath opts g r] ∧
     Part000.cache (Part000.globals s1) !! docPath opts g r = Some page ∧
     Part000.response s2 = Part000.response s1 ∧
     Part000.rendered s2 = []) ∧
  (∀ opts disk1 disk2 g w r page,
     MainGo.cache g !! MainGo.documentPath opts g (URLPath r) = None →
     GetPage disk1 (MainGo.documentPath opts g (URLPath r)) = inl page →
     let s1 := MainGo.renderer opts disk1 g w r in
     let s2 := MainGo.renderer opts disk2 (MainGo.globals s1) w r in
     MainGo.rendered s1 = [MainGo.documentPath opts g (URLPath r)] ∧
     if MainGo.optDebug opts then
       MainGo.cache (MainGo.globals s1) !! MainGo.documentPath opts g (URLPath r)
         = None ∧
       MainGo.rendered s2 = [MainGo.documentPath opts g (URLPath r)]
     else
       MainGo.cache (MainGo.globals s1) !! MainGo.documentPath opts g (URLPath r)
         = Some page ∧
       MainGo.response s2 = MainGo.response s1 ∧
       MainGo.rendered s2 = []).
Proof.
  split.
  - intros opts disk1 disk2 g w r page Hidx Hmiss Hget.
    destruct (renderPage_first_then_cached opts disk1 disk2 g w r page
                Hidx Hmiss Hget) as (? & ? & ? & ? & ? & ?).
    done.
  - intros opts disk1 disk2 g w r page Hmiss Hget.
    destruct (MainGo.optDebug opts) eqn:Hdbg.
    + destruct (renderer_debug_never_caches opts disk1 disk2 g w r page
                  Hdbg Hmiss Hget) as (? & Hg & ? & ?).
      cbv zeta. split; [done|]. split; [by rewrite Hg|done].
    + destruct (renderer_first_then_cached opts disk1 disk2 g w r page
                  Hdbg Hmiss Hget) as (? & ? & ? & ? & ? & ?).
      done.
Qed.

End CacheFacts.

(** ** Composing the response *)

Lemma body_WriteTo b w : body (WriteTo b w) = body w +:+ b.
Proof.
  unfold WriteTo. case_decide as Hb.
  - by rewrite Hb, sapp_nil_r.
  - by rewrite Write_spec.
Qed.

Lemma header_WriteTo b w : header (WriteTo b w) = header w.
Proof. unfold WriteTo. case_decide; [done|]. by rewrite Write_spec. Qed.

Section WriteFacts.
Context `{RT : Runtime}.

Lemma gzip_three t0 bytes t1 :
  Gzip.Close (Gzip.Write t1 (Gzip.Write bytes (Gzip.Write t0 Gzip.NewWriter)))
    EmptyString
  = gzip (t0 +:+ bytes +:+ t1).
Proof.
  unfold Gzip.Close, Gzip.Write, Gzip.NewWriter.
  by rewrite !sapp_nil_l, sapp_assoc.
Qed.

(** [write] of the revision with the indexes, when the request is not
    answered with Not Modified. *)
Lemma write_composed g w r bytes hash pre suf :
  Part000.tmpl g = [pre; suf] →
  (0 <? slen hash)%nat && GoStrings.EqualFold (Get (ReqHeader r) "If-None-Match") hash
    = false →
  let w0 := SetHeader "Content-Type" "text/html; charset=UTF-8"
              (if (0 <? slen hash)%nat then SetHeader "Etag" hash w else w) in
  let plain := pre +:+ bytes +:+ suf in
  Part000.write g w r bytes hash
  = Some (if GoStrings.Contains (Get (ReqHeader r) "Accept-Encoding") "gzip" then
            WriteTo (gzip plain)
              (SetHeader "Content-Length" (Strconv.Itoa (Z.of_nat (slen (gzip plain))))
                 (SetHeader "Content-Encoding" "gzip" w0))
          else Write plain
                 (SetHeader "Content-Length"
                    (Strconv.Itoa (Z.of_nat (slen pre + slen bytes + slen suf))) w0)).
Proof.
  intros Ht Hmiss. unfold Part000.write. rewrite Hmiss, Ht. simpl.
  destruct (GoStrings.Contains _ _).
  - by rewrite gzip_three.
  - by rewrite !Write_Write.
Qed.

(** [write] of the revision with the debug flag, likewise. *)
Lemma main_write_composed g w r page pre suf :
  MainGo.tmpl g = [pre; suf] →
  GoStrings.EqualFold (Get (ReqHeader r) "If-None-Match") (Hash page) = false →
  let w0 := SetHeader "Content-Type" "text/html; charset=UTF-8"
              (SetHeader "Etag" (Hash page) w) in
  let plain := pre +:+ Content page +:+ suf in
  MainGo.write g w r page
  = Some (if GoStrings.Contains (Get (ReqHeader r) "Accept-Encoding") "gzip" then
            WriteTo (gzip plain)
              (SetHeader "Content-Length" (Strconv.Itoa (Z.of_nat (slen (gzip plain))))
                 (SetHeader "Content-Encoding" "gzip" w0))
          else Write plain
                 (SetHeader "Content-Length"
                    (Strconv.Itoa (Z.of_nat (slen pre + slen (Content page) + slen suf)))
                    w0)).
Proof.
  intros Ht Hmiss. unfold MainGo.write. rewrite Hmiss, Ht. simpl.
  destruct (GoStrings.Contains _ _).
  - by rewrite gzip_three.
  - by rewrite !Write_Write.
Qed.

(** C4: when a response is composed, its body is the gzip stream of
    prefix, content and suffix taken together exactly if the request's
    [Accept-Encoding] contains [gzip], and those three segments as they
    are otherwise; the stream decompresses to the uncompressed body;
    [Content-Length] is the length of the stream in the first case and
    the sum of the three lengths in the second. *)
Theorem write_gzip_negotiated (gunzip : string → option string) :
  (∀ s, gunzip (gzip s) = Some s) →
  (∀ g r bytes hash pre suf,
     Part000.tmpl g = [pre; suf] →
     (0 <? slen hash)%nat &&
       GoStrings.EqualFold (Get (ReqHeader r) "If-None-Match") hash = false →
     ∃ w', Part000.write g NewRecorder r bytes hash = Some w' ∧
       if GoStrings.Contains (Get (ReqHeader r) "Accept-Encoding") "gzip" then
         body w' = gzip (pre +:+ bytes +:+ suf) ∧
         gunzip (body w') = Some (pre +:+ bytes +:+ suf) ∧
         header w' !! "Content-Encoding" = Some ["gzip"] ∧
         header w' !! "Content-Length"
           = Some [Strconv.Itoa (Z.of_nat (slen (body w')))]
       else
         body w' = pre +:+ bytes +:+ suf ∧
         header w' !! "Content-Encoding" = None ∧
         header w' !! "Content-Length"
           = Some [Strconv.Itoa (Z.of_nat (slen pre + slen bytes + slen suf))] ∧
         slen (body w') = (slen pre + slen bytes + slen suf)%nat) ∧
  (∀ g r page pre suf,
     MainGo.tmpl g = [pre; suf] →
     GoStrings.EqualFold (Get (ReqHeader r) "If-None-Match") (Hash page) = false →
     ∃ w', MainGo.write g NewRecorder r page = Some w' ∧
       if GoStrings.Contains (Get (ReqHeader r) "Accept-Encoding") "gzip" then
         body w' = gzip (pre +:+ Content page +:+ suf) ∧
         gunzip (body w') = Some (pre +:+ Content page +:+ suf) ∧
         header w' !! "Content-Encoding" = Some ["gzip"] ∧
         header w' !! "Content-Length"
           = Some [Strconv.Itoa (Z.of_nat (slen (body w')))]
       else
         body w' = pre +:+ Content page +:+ suf ∧
         header w' !! "Content-Encoding" = None ∧
         header w' !! "Content-Length"
           = Some [Strconv.Itoa
                     (Z.of_nat (slen pre + slen (Content page) + slen suf))] ∧
         slen (body w') = (slen pre + slen (Content page) + slen suf)%nat).
Proof.
  intros Hround. split.
  - intros g r bytes hash pre suf Ht Hmiss.
    eexists. split; [by apply write_composed|].
    destruct (GoStrings.Contains _ _), (0 <? slen hash)%nat;
      rewrite ?body_WriteTo, ?header_WriteTo, ?Write_spec; simpl;
      rewrite sapp_nil_l, ?Hround, ?slen_app;
      split_and!; try done;
      repeat (rewrite lookup_insert_eq || (rewrite lookup_insert_ne by done));
      try done; lia.
  - intros g r page pre suf Ht Hmiss.
    eexists. split; [by apply main_write_composed|].
    destruct (GoStrings.Contains _ _);
      rewrite ?body_WriteTo, ?header_WriteTo, ?Write_spec; simpl;
      rewrite sapp_nil_l, ?Hround, ?slen_app;
      split_and!; try done;
      repeat (rewrite lookup_insert_eq || (rewrite lookup_insert_ne by done));
      try done; lia.
Qed.

End WriteFacts.

(** ** Conditional requests *)

Section ConditionalFacts.
Context `{RT : Runtime}.

Lemma slen_pos_iff hash : (0 <? slen hash)%nat = true ↔ hash ≠ EmptyString.
Proof. destruct hash; simpl; split; done. Qed.


End ConditionalFacts.

(** ** Render failures *)

Lemma sapp_eq_nil s t : s +:+ t = EmptyString → s = EmptyString ∧ t = EmptyString.
Proof. destruct s; [done|]. by rewrite sapp_cons. Qed.


Section ErrorFacts.
Context `{RT : Runtime}.



End ErrorFacts.

(** ** Splitting the template *)

Lemma sdrop_nil n : sdrop n EmptyString = EmptyString.
Proof. by destruct n. Qed.

Lemma sdrop_sdrop a b s : sdrop a (sdrop b s) = sdrop (b + a) s.
Proof.
  revert s. induction b as [|b IH]; intros s; [done|].
  destruct s as [|c s]; simpl; [apply sdrop_nil|apply IH].
Qed.

Lemma stake_sdrop n s : stake n s +:+ sdrop n s = s.
Proof.
  revert s. induction n as [|n IH]; intros [|c s]; simpl; try done.
  by rewrite sapp_cons, IH.
Qed.

Lemma slen_sdrop n s : slen (sdrop n s) = (slen s - n)%nat.
Proof.
  revert s. induction n as [|n IH]; intros [|c s]; simpl; try done; lia.
Qed.

Lemma HasPrefix_app s p : GoStrings.HasPrefix s p = true → s = p +:+ sdrop (slen p) s.
Proof.
  revert s. induction p as [|a p IH]; intros s H; [done|].
  destruct s as [|b s]; [done|]. simpl in H.
  apply andb_prop in H as [Hab H]. apply Ascii.eqb_eq in Hab as ->.
  rewrite sapp_cons. simpl. by rewrite <- IH.
Qed.

Lemma HasPrefix_nil p : p ≠ EmptyString → GoStrings.HasPrefix EmptyString p = false.
Proof. by destruct p. Qed.

(** The first occurrence: [sep] stands at the position found, and no
    occurrence is lost by looking from there on. *)
Lemma Index_Some s sep m :
  GoStrings.Index s sep = Some m →
  GoStrings.HasPrefix (sdrop m s) sep = true ∧
  occurrences sep s = occurrences sep (sdrop m s).
Proof.
  revert m. induction s as [|c s IH]; intros m.
  - destruct sep as [|a sep]; simpl; [|done]. by intros [= <-].
  - cbn [GoStrings.Index occurrences].
    destruct (GoStrings.HasPrefix (String c s) sep) eqn:Hp.
    + intros [= <-]. cbn [sdrop occurrences]. by rewrite Hp.
    + destruct (GoStrings.Index s sep) as [m'|] eqn:Hi; [|done].
      intros [= <-]. cbn [sdrop]. by apply IH.
Qed.

Lemma Index_None s sep : GoStrings.Index s sep = None → occurrences sep s = 0%nat.
Proof.
  induction s as [|c s IH].
  - by destruct sep.
  - cbn [GoStrings.Index occurrences].
    destruct (GoStrings.HasPrefix (String c s) sep); [done|].
    destruct (GoStrings.Index s sep); [done|]. intros _. by rewrite IH.
Qed.

(** No occurrence of the placeholder overlaps another one. *)
Lemma occurrences_placeholder_skip rest :
  occurrences placeholder (placeholder +:+ rest) = S (occurrences placeholder rest).
Proof. reflexivity. Qed.

Lemma occurrences_at_placeholder u :
  GoStrings.HasPrefix u placeholder = true →
  occurrences placeholder u = S (occurrences placeholder (sdrop 11 u)).
Proof.
  intros H. rewrite (HasPrefix_app _ _ H) at 1.
  apply occurrences_placeholder_skip.
Qed.

Lemma genSplit_length fuel s :
  (slen s ≤ fuel)%nat →
  length (GoBytes.genSplit fuel s placeholder) = S (occurrences placeholder s).
Proof.
  revert s. induction fuel as [|fuel IH]; intros s Hlen.
  - destruct s; [done|simpl in Hlen; lia].
  - simpl. destruct (GoStrings.Index s placeholder) as [m|] eqn:Hi.
    + apply Index_Some in Hi as [Hp Hocc].
      simpl. rewrite IH.
      * rewrite Hocc, (occurrences_at_placeholder _ Hp), sdrop_sdrop.
        done.
      * rewrite slen_sdrop. simpl. lia.
    + by rewrite (Index_None _ _ Hi).
Qed.

(** [bytes.Split] on the placeholder gives one fragment more than the
    placeholder has occurrences. *)
Lemma Split_length b :
  length (GoBytes.Split b placeholder) = S (occurrences placeholder b).
Proof. apply genSplit_length. done. Qed.

Lemma genSplit_nonempty fuel s sep : GoBytes.genSplit fuel s sep ≠ [].
Proof.
  destruct fuel; cbn [GoBytes.genSplit]; [done|].
  by destruct (GoStrings.Index s sep).
Qed.

Lemma genSplit_one fuel s sep :
  length (GoBytes.genSplit fuel s sep) = 1%nat → GoBytes.genSplit fuel s sep = [s].
Proof.
  destruct fuel; cbn [GoBytes.genSplit]; [done|].
  destruct (GoStrings.Index s sep) as [m|]; [|done].
  cbn [length]. intros [= Hlen].
  apply length_zero_iff_nil in Hlen. by apply genSplit_nonempty in Hlen.
Qed.

(** Two fragments are what stands before and after the one occurrence. *)
Lemma Split_two b :
  occurrences placeholder b = 1%nat →
  ∃ pre suf, GoBytes.Split b placeholder = [pre; suf] ∧
             b = pre +:+ placeholder +:+ suf.
Proof.
  intros Hocc. pose proof (Split_length b) as Hlen. rewrite Hocc in Hlen.
  change (GoBytes.Split b placeholder)
    with (GoBytes.genSplit (slen b) b placeholder) in *.
  destruct (slen b) as [|fuel]; cbn [GoBytes.genSplit] in *; [done|].
  destruct (GoStrings.Index b placeholder) as [m|] eqn:Hi; [|done].
  apply Index_Some in Hi as [Hp _].
  cbn [length] in Hlen. injection Hlen as Hlen.
  exists (stake m b), (sdrop (m + slen placeholder) b). split.
  - f_equal. by apply genSplit_one.
  - rewrite <- sdrop_sdrop.
    by rewrite <- (HasPrefix_app _ _ Hp), stake_sdrop.
Qed.

Lemma Split_two_iff b :
  length (GoBytes.Split b placeholder) = 2%nat ↔ occurrences placeholder b = 1%nat.
Proof. rewrite Split_length. lia. Qed.

Section TemplateFacts.
Context `{RT : Runtime}.

Lemma setupTemplate_readable opts disk g b :
  ReadFile disk (GoPath.Join [Part000.root g; Part000.optTemplate opts]) = Some b →
  Part000.setupTemplate opts disk g
  = if decide (length (GoBytes.Split b placeholder) ≠ 2%nat) then
      Fatal "Template was not in a valid format"
    else
      Running {| Part000.root := Part000.root g; Part000.cache := ∅;
                 Part000.indexCache := Part000.indexCache g;
                 Part000.tmpl := GoBytes.Split b placeholder;
                 Part000.tmplHash := Part000.hash b |}.
Proof. intros Hb. unfold Part000.setupTemplate. by rewrite Hb. Qed.

Lemma main_setupTemplate_readable opts disk g b :
  ReadFile disk (GoPath.Join [MainGo.root g; MainGo.optTemplate opts]) = Some b →
  MainGo.setupTemplate opts disk g
  = if decide (length (GoBytes.Split b placeholder) ≠ 2%nat) then
      Fatal "Template was not in a valid format"
    else
      Running {| MainGo.root := MainGo.root g; MainGo.cache := MainGo.cache g;
                 MainGo.tmpl := GoBytes.Split b placeholder |}.
Proof. intros Hb. unfold MainGo.setupTemplate. by rewrite Hb. Qed.

(** C7: for a template file that can be read, [setupTemplate] ends the
    process exactly when the split on the placeholder does not give two
    fragments, that is when the placeholder does not occur exactly
    once; with one occurrence the fragments are what stands before and
    after it; and when [setupTemplate] ends the process [main] never
    gets to serve. *)
Theorem template_needs_one_placeholder :
  (∀ opts disk g b,
     ReadFile disk (GoPath.Join [Part000.root g; Part000.optTemplate opts]) = Some b →
     ((∃ msg, Part000.setupTemplate opts disk g = Fatal msg) ↔
      length (GoBytes.Split b placeholder) ≠ 2%nat) ∧
     (length (GoBytes.Split b placeholder) = 2%nat ↔
      occurrences placeholder b = 1%nat) ∧
     (occurrences placeholder b = 1%nat →
      ∃ pre suf, b = pre +:+ placeholder +:+ suf ∧
        Part000.setupTemplate opts disk g
        = Running {| Part000.root := Part000.root g; Part000.cache := ∅;
                     Part000.indexCache := Part000.indexCache g;
                     Part000.tmpl := [pre; suf];
                     Part000.tmplHash := Part000.hash b |})) ∧
  (∀ opts disk r tree b,
     ReadFile disk (GoPath.Join [r; Part000.optTemplate opts]) = Some b →
     occurrences placeholder b ≠ 1%nat →
     Part000.main opts (Some r) disk tree
     = Fatal "Template was not in a valid format") ∧
  (∀ opts disk g b,
     ReadFile disk (GoPath.Join [MainGo.root g; MainGo.optTemplate opts]) = Some b →
     ((∃ msg, MainGo.setupTemplate opts disk g = Fatal msg) ↔
      length (GoBytes.Split b placeholder) ≠ 2%nat) ∧
     (occurrences placeholder b = 1%nat →
      ∃ pre suf, b = pre +:+ placeholder +:+ suf ∧
        MainGo.setupTemplate opts disk g
        = Running {| MainGo.root := MainGo.root g; MainGo.cache := MainGo.cache g;
                     MainGo.tmpl := [pre; suf] |})) ∧
  (∀ opts disk r b,
     ReadFile disk (GoPath.Join [r; MainGo.optTemplate opts]) = Some b →
     occurrences placeholder b ≠ 1%nat →
     MainGo.main opts (Some r) disk = Fatal "Template was not in a valid format").
Proof.
  split_and!.
  - intros opts disk g b Hb.
    rewrite (setupTemplate_readable _ _ _ _ Hb). split_and!.
    + case_decide; split; try done.
      * by eexists.
      * by intros [msg ?].
    + apply Split_two_iff.
    + intros Hocc. destruct (Split_two b Hocc) as (pre & suf & Hsplit & Heq).
      exists pre, suf. split; [done|]. rewrite Hsplit.
      by case_decide.
  - intros opts disk r tree b Hb Hocc. unfold Part000.main.
    rewrite (setupTemplate_readable _ _ _ b) by done.
    rewrite <- Split_two_iff in Hocc. by case_decide.
  - intros opts disk g b Hb.
    rewrite (main_setupTemplate_readable _ _ _ _ Hb). split.
    + case_decide; split; try done.
      * by eexists.
      * by intros [msg ?].
    + intros Hocc. destruct (Split_two b Hocc) as (pre & suf & Hsplit & Heq).
      exists pre, suf. split; [done|]. rewrite Hsplit.
      by case_decide.
  - intros opts disk r b Hb Hocc. unfold MainGo.main.
    rewrite (main_setupTemplate_readable _ _ _ b) by done.
    rewrite <- Split_two_iff in Hocc. by case_decide.
Qed.


End TemplateFacts.

(** ** The home directory *)

Lemma LastIndex_rooted u :
  GoStrings.HasPrefix u "/" = true → is_Some (GoStrings.LastIndex u "/").
Proof.
  destruct u as [|c u]; [done|]. intros H. cbn [GoStrings.LastIndex].
  destruct (GoStrings.LastIndex u "/"); [by eexists|]. rewrite H. by eexists.
Qed.

(** The directory part of a path that starts with a slash is not empty. *)
Lemma Split_rooted u :
  GoStrings.HasPrefix u "/" = true → (GoPath.Split u).1 ≠ EmptyString.
Proof.
  intros H. unfold GoPath.Split.
  destruct (LastIndex_rooted u H) as [i ->]. by destruct u.
Qed.

(** The path of a request that starts with a slash, as every path the
    HTTP server hands to the handler does, never gets the home directory:
    the candidate is the same whatever the flag is. *)
Lemma candidate_ignores_home g u addr path static tmplName home home' dflt ext :
  GoStrings.HasPrefix u "/" = true →
  Part000.candidate
    {| Part000.optAddr := addr; Part000.optPath := path;
       Part000.optStaticDir := static; Part000.optTemplate := tmplName;
       Part000.optHomeDir := home; Part000.optDefault := dflt;
       Part000.optExt := ext |} g u
  = Part000.candidate
      {| Part000.optAddr := addr; Part000.optPath := path;
         Part000.optStaticDir := static; Part000.optTemplate := tmplName;
         Part000.optHomeDir := home'; Part000.optDefault := dflt;
         Part000.optExt := ext |} g u.
Proof.
  intros H. apply Split_rooted in H. unfold Part000.candidate.
  destruct (GoPath.Split u) as [p file]. simpl in *.
  destruct (decide (p = EmptyString)); done.
Qed.

(** A path without a slash gets the home directory. *)
Lemma candidate_no_slash opts g u :
  GoStrings.LastIndex u "/" = None →
  Part000.candidate opts g u
  = GoPath.Join [Part000.root g; Part000.optHomeDir opts;
                 if decide (u = EmptyString) then Part000.optDefault opts else u].
Proof. intros H. unfold Part000.candidate, GoPath.Split. by rewrite H. Qed.

(** C2 at the request for [/], with the home directory [blog] and the
    default document [index]: both revisions resolve it to [index.md]
    right under the root, not under [blog]. *)
Theorem root_request_not_under_home :
  GoPath.Split "/" = ("/", EmptyString) ∧
  Part000.candidate Demo.opts Demo.site "/" = "/srv/www/index" ∧
  docPath Demo.opts Demo.site (Demo.get "/" ∅) = "/srv/www/index.md" ∧
  MainGo.documentPath (Demo.mainOpts false) Demo.mainSite "/" = "/srv/www/index.md" ∧
  docPath Demo.opts Demo.site (Demo.get "/" ∅) ≠ "/srv/www/blog/index.md".
Proof. split_and!; [by vm_compute..|]. by vm_compute. Qed.

(** ** The index cache at startup *)

Section WalkFacts.
Context `{RT : Runtime}.

(** A descriptor that decodes is stored under its path with its
    entries as the decoder gave them. *)
Lemma walk_descriptor opts path bytes pages ic :
  jsonDecode bytes = Some pages →
  Part000.walk opts path (File (Part000.optDefault opts +:+ ".json") (Some bytes)) ic
  = Running (<[path := pages]> ic).
Proof. intros Hd. simpl. case_decide; [|done]. by rewrite Hd. Qed.

(** A directory whose name starts with a dot adds nothing. *)
Lemma walk_hidden opts path name children ic :
  GoStrings.HasPrefix name "." = true →
  Part000.walk opts path (Dir name children) ic = Running ic.
Proof. intros Hh. cbn [Part000.walk]. by rewrite Hh. Qed.

End WalkFacts.

(** ** The properties on the small site *)

(** From startup to the listing: the descriptor found under [blog] is
    rendered for [/blog/], its two entries in the order of the array. *)
Example demo_blog_listing :
  ∃ p, Part000.main (RT := Demo.runtime) Demo.opts (Some "/srv/www") Demo.disk Demo.tree
       = Running p ∧
       Part000.response
         (Part000.renderPage (RT := Demo.runtime) Demo.opts Demo.disk (Part000.vars p)
            NewRecorder (Demo.get "/blog/" ∅))
       = Some {| code := Some 200; header := ∅; body := Demo.blogListing |}.
Proof.
  exists {| Part000.vars := Demo.site; Part000.sigchan := 0; Part000.listening := true |}.
  split; vm_compute; reflexivity.
Qed.

Lemma renderIndex_lists_in_order_witness :
  ∃ w', Part000.renderIndex Demo.site NewRecorder (Demo.get "/blog/" ∅)
          [Demo.postA; Demo.postB] = Some w' ∧
        body w' = Demo.blogListing.
Proof.
  destruct (renderIndex_lists_in_order Demo.site NewRecorder (Demo.get "/blog/" ∅)
              [Demo.postA; Demo.postB] "<body>" "</body>" eq_refl)
    as (w' & Hw & Hbody & _).
  exists w'. split; [exact Hw|]. rewrite Hbody. reflexivity.
Defined.


Lemma first_request_caches_unless_debug_witness :
  (let s1 := Part000.renderPage (RT := Demo.runtime) Demo.opts Demo.disk Demo.site
               NewRecorder (Demo.get "/about" ∅) in
   let s2 := Part000.renderPage (RT := Demo.runtime) Demo.opts Demo.disk2
               (Part000.globals s1) NewRecorder (Demo.get "/about" ∅) in
   Part000.rendered s1 = ["/srv/www/about.md"] ∧
   Part000.cache (Part000.globals s1) !! "/srv/www/about.md" = Some Demo.aboutPage ∧
   Part000.response s2 = Part000.response s1 ∧
   Part000.rendered s2 = []) ∧
  (let s1 := MainGo.renderer (RT := Demo.runtime) (Demo.mainOpts false) Demo.disk
               Demo.mainSite NewRecorder (Demo.get "/about" ∅) in
   let s2 := MainGo.renderer (RT := Demo.runtime) (Demo.mainOpts false) Demo.disk2
               (MainGo.globals s1) NewRecorder (Demo.get "/about" ∅) in
   MainGo.rendered s1 = ["/srv/www/about.md"] ∧
   MainGo.cache (MainGo.globals s1) !! "/srv/www/about.md" = Some Demo.aboutPage ∧
   MainGo.response s2 = MainGo.response s1 ∧
   MainGo.rendered s2 = []).
Proof.
  destruct (first_request_caches_unless_debug (RT := Demo.runtime)) as [Hidx Hdbg].
  split.
  - pose proof (Hidx Demo.opts Demo.disk Demo.disk2 Demo.site NewRecorder
                  (Demo.get "/about" ∅) Demo.aboutPage) as H.
    apply H; vm_compute; reflexivity.
  - pose proof (Hdbg (Demo.mainOpts false) Demo.disk Demo.disk2 Demo.mainSite
                  NewRecorder (Demo.get "/about" ∅) Demo.aboutPage) as H.
    apply H; vm_compute; reflexivity.
Defined.

(** C1 as stated fails in [src/main.go] under the debug flag: the first
    request renders [/about] and stores nothing, and the second one calls
    the renderer again and, the document having changed, sends other
    bytes. *)
Lemma debug_request_renders_twice :
  let s1 := MainGo.renderer (RT := Demo.runtime) (Demo.mainOpts true) Demo.disk
              Demo.mainSite NewRecorder (Demo.get "/about" ∅) in
  let s2 := MainGo.renderer (RT := Demo.runtime) (Demo.mainOpts true) Demo.disk2
              (MainGo.globals s1) NewRecorder (Demo.get "/about" ∅) in
  MainGo.cache Demo.mainSite !! "/srv/www/about.md" = None ∧
  MainGo.rendered s1 = ["/srv/www/about.md"] ∧
  body <$> MainGo.response s1 = Some "<body><p>About us</p></body>" ∧
  MainGo.cache (MainGo.globals s1) !! "/srv/www/about.md" = None ∧
  MainGo.rendered s2 = ["/srv/www/about.md"] ∧
  body <$> MainGo.response s2 = Some "<body><p>About them</p></body>" ∧
  MainGo.response s2 ≠ MainGo.response s1.
Proof. split_and!; [by vm_compute..|]. by vm_compute. Qed.

Lemma write_gzip_negotiated_witness :
  (∃ w', Part000.write (RT := Demo.runtime) Demo.site NewRecorder
           (Demo.get "/about" Demo.acceptGzip) "<p>About us</p>" "c0ffee" = Some w' ∧
         body w' = "gz:<body><p>About us</p></body>" ∧
         Demo.unmark (body w') = Some "<body><p>About us</p></body>" ∧
         header w' !! "Content-Encoding" = Some ["gzip"] ∧
         header w' !! "Content-Length" = Some ["31"]) ∧
  (∃ w', MainGo.write (RT := Demo.runtime) Demo.mainSite NewRecorder
           (Demo.get "/about" ∅) Demo.aboutPage = Some w' ∧
         body w' = "<body><p>About us</p></body>" ∧
         header w' !! "Content-Encoding" = None ∧
         header w' !! "Content-Length" = Some ["28"]).
Proof.
  destruct (write_gzip_negotiated (RT := Demo.runtime) Demo.unmark (λ s, eq_refl))
    as [Hidx Hmain].
  split.
  - assert (Hmiss : (0 <? slen "c0ffee")%nat &&
                    GoStrings.EqualFold
                      (Get (ReqHeader (Demo.get "/about" Demo.acceptGzip)) "If-None-Match")
                      "c0ffee" = false) by (vm_compute; reflexivity).
    assert (Hgz : GoStrings.Contains
                    (Get (ReqHeader (Demo.get "/about" Demo.acceptGzip))
                       "Accept-Encoding") "gzip" = true)
      by (vm_compute; reflexivity).
    destruct (Hidx Demo.site (Demo.get "/about" Demo.acceptGzip) "<p>About us</p>"
                "c0ffee" "<body>" "</body>" eq_refl Hmiss) as (w' & Hw & H).
    exists w'. split; [exact Hw|].
    rewrite Hgz in H. destruct H as (Hb & Hun & Hce & Hcl).
    rewrite Hcl, Hun, Hb. repeat split. exact Hce.
  - assert (Hmiss : GoStrings.EqualFold
                      (Get (ReqHeader (Demo.get "/about" ∅)) "If-None-Match")
                      (Hash Demo.aboutPage) = false) by (vm_compute; reflexivity).
    assert (Hgz : GoStrings.Contains
                    (Get (ReqHeader (Demo.get "/about" ∅)) "Accept-Encoding") "gzip"
                  = false)
      by (vm_compute; reflexivity).
    destruct (Hmain Demo.mainSite (Demo.get "/about" ∅) Demo.aboutPage
                "<body>" "</body>" eq_refl Hmiss) as (w' & Hw & H).
    exists w'. split; [exact Hw|].
    rewrite Hgz in H. destruct H as (Hb & Hce & Hcl & _).
    rewrite Hb. repeat split; [exact Hce|exact Hcl].
Defined.




(** The other kind of failure on the same site. *)
Example demo_unclassified_failure :
  Part000.response
    (Part000.renderPage (RT := Demo.runtime) Demo.opts Demo.disk Demo.site
       NewRecorder (Demo.get "/empty" Demo.acceptGzip))
  = Some {| code := Some 500;
            header := {["Content-Type" := ["text/html; charset=UTF-8"]]};
            body := "<body><h2>Oops! We've hit a bit of a problem...</h2>" +:+
                    "<p>Page not available</p></body>" |}.
Proof. vm_compute. reflexivity. Qed.

Lemma template_needs_one_placeholder_witness :
  (∃ pre suf, Demo.template = pre +:+ placeholder +:+ suf ∧
     Part000.setupTemplate (RT := Demo.runtime) Demo.opts Demo.disk Demo.warmSite
     = Running {| Part000.root := Part000.root Demo.warmSite; Part000.cache := ∅;
                  Part000.indexCache := Part000.indexCache Demo.warmSite;
                  Part000.tmpl := [pre; suf];
                  Part000.tmplHash := Part000.hash (RT := Demo.runtime) Demo.template |}) ∧
  Part000.main (RT := Demo.runtime) Demo.opts (Some "/srv/www") Demo.brokenDisk Demo.tree
  = Fatal "Template was not in a valid format" ∧
  (∃ pre suf, Demo.template = pre +:+ placeholder +:+ suf ∧
     MainGo.setupTemplate (RT := Demo.runtime) (Demo.mainOpts false) Demo.disk Demo.mainSite
     = Running {| MainGo.root := MainGo.root Demo.mainSite;
                  MainGo.cache := MainGo.cache Demo.mainSite;
                  MainGo.tmpl := [pre; suf] |}) ∧
  MainGo.main (RT := Demo.runtime) (Demo.mainOpts false) (Some "/srv/www") Demo.brokenDisk
  = Fatal "Template was not in a valid format".
Proof.
  destruct (template_needs_one_placeholder (RT := Demo.runtime))
    as (Hload & Hmain & Hload' & Hmain').
  assert (Hread : ReadFile (Runtime := Demo.runtime) Demo.disk
                    (GoPath.Join [Part000.root Demo.warmSite;
                                  Part000.optTemplate Demo.opts])
                  = Some Demo.template) by (vm_compute; reflexivity).
  assert (Hread' : ReadFile (Runtime := Demo.runtime) Demo.disk
                     (GoPath.Join [MainGo.root Demo.mainSite;
                                   MainGo.optTemplate (Demo.mainOpts false)])
                   = Some Demo.template) by (vm_compute; reflexivity).
  assert (Hbroken : ReadFile (Runtime := Demo.runtime) Demo.brokenDisk
                      (GoPath.Join ["/srv/www"; Part000.optTemplate Demo.opts])
                    = Some "<body>{{content}}{{content}}</body>")
    by (vm_compute; reflexivity).
  assert (Hbroken' : ReadFile (Runtime := Demo.runtime) Demo.brokenDisk
                       (GoPath.Join ["/srv/www"; MainGo.optTemplate (Demo.mainOpts false)])
                     = Some "<body>{{content}}{{content}}</body>")
    by (vm_compute; reflexivity).
  assert (Hone : occurrences placeholder Demo.template = 1%nat)
    by (vm_compute; reflexivity).
  assert (Htwo : occurrences placeholder "<body>{{content}}{{content}}</body>" ≠ 1%nat)
    by (vm_compute; discriminate).
  split_and!.
  - destruct (Hload Demo.opts Demo.disk Demo.warmSite Demo.template Hread)
      as (_ & _ & Hfrag).
    exact (Hfrag Hone).
  - exact (Hmain Demo.opts Demo.brokenDisk "/srv/www" Demo.tree _ Hbroken Htwo).
  - destruct (Hload' (Demo.mainOpts false) Demo.disk Demo.mainSite Demo.template Hread')
      as (_ & Hfrag).
    exact (Hfrag Hone).
  - exact (Hmain' (Demo.mainOpts false) Demo.brokenDisk "/srv/www" _ Hbroken' Htwo).
Defined.

(** The fragments of the two templates of the site, and a template
    without the placeholder. *)
Example demo_split_template :
  GoBytes.Split Demo.template placeholder = ["<body>"; "</body>"] ∧
  GoBytes.Split Demo.template2 placeholder = ["<main>"; "</main>"] ∧
  GoBytes.Split "<body>{{content}}{{content}}</body>" placeholder
    = ["<body>"; ""; "</body>"] ∧
  GoBytes.Split "<body></body>" placeholder = ["<body></body>"].
Proof. split_and!; vm_compute; reflexivity. Qed.


(** The listener takes one signal only: once it has taken one it is
    gone, and a later signal stays in the channel. *)
Lemma listener_once `{RT : Runtime} opts disk disk' p p' :
  Part000.listener opts disk p = Some (Running p') →
  Part000.listener opts disk' (Part000.notify p') = None.
Proof.
  unfold Part000.listener. intros Hrun.
  destruct (Part000.listening p && (0 <? Part000.sigchan p)%nat); [|done].
  destruct (Part000.setupTemplate opts disk (Part000.vars p)) as [g|msg]; [|done].
  by injection Hrun as <-.
Qed.

(** The index is looked up before the page cache: with a page cached
    under [blog/index.md] the request for [/blog/] still gets the
    listing. *)
Example demo_index_before_cache :
  Part000.renderPage (RT := Demo.runtime) Demo.opts Demo.disk
    {| Part000.root := "/srv/www";
       Part000.cache := <["/srv/www/blog/index.md" := Demo.aboutPage]> ∅;
       Part000.indexCache := Part000.indexCache Demo.site;
       Part000.tmpl := Part000.tmpl Demo.site;
       Part000.tmplHash := Part000.tmplHash Demo.site |}
    NewRecorder (Demo.get "/blog/" ∅)
  = {| Part000.globals :=
         {| Part000.root := "/srv/www";
            Part000.cache := <["/srv/www/blog/index.md" := Demo.aboutPage]> ∅;
            Part000.indexCache := Part000.indexCache Demo.site;
            Part000.tmpl := Part000.tmpl Demo.site;
            Part000.tmplHash := Part000.tmplHash Demo.site |};
       Part000.response :=
         Some {| code := Some 200; header := ∅; body := Demo.blogListing |};
       Part000.rendered := [] |}.
Proof. vm_compute. reflexivity. Qed.

(** A request for a document on the same site: rendered, stored, sent
    with its entity tag and its length. *)
Example demo_about :
  Part000.renderPage (RT := Demo.runtime) Demo.opts Demo.disk Demo.site
    NewRecorder (Demo.get "/about" ∅)
  = {| Part000.globals := Demo.warmSite;
       Part000.response :=
         Some {| code := Some 200;
                 header := <["Content-Length" := ["28"]]>
                             (<["Content-Type" := ["text/html; charset=UTF-8"]]>
                                (<["Etag" := ["c0ffee"]]> ∅));
                 body := "<body><p>About us</p></body>" |};
       Part000.rendered := ["/srv/www/about.md"] |}.
Proof. vm_compute. reflexivity. Qed.

(** * More of the program *)

(** ** What a request may change *)

Section FrameFacts.
Context `{RT : Runtime} (opts : Part000.Options).

(** What a run of requests needs to know of one request. *)
Lemma renderPage_cache_kept disk g w r :
  Part000.tmpl (Part000.globals (Part000.renderPage opts disk g w r)) = Part000.tmpl g ∧
  ∀ k page, Part000.cache g !! k = Some page →
    Part000.cache (Part000.globals (Part000.renderPage opts disk g w r)) !! k
      = Some page ∧
    k ∉ Part000.rendered (Part000.renderPage opts disk g w r).
Proof.
  unfold Part000.renderPage. fold (docPath opts g r).
  destruct (Part000.indexCache g !! _) as [pIdx|]; cbn zeta.
  { cbn. split; [done|]. intros k page Hk. split; [done|]. by intros ?%elem_of_nil. }
  destruct (Part000.cache g !! docPath opts g r) as [page|] eqn:Hc.
  { cbn. split; [done|]. intros k page' Hk. split; [done|]. by intros ?%elem_of_nil. }
  destruct (GetPage disk (docPath opts g r)) as [page|err]; cbn.
  - split; [done|]. intros k page' Hk. split.
    + rewrite lookup_insert_ne; [done|]. congruence.
    + intros ->%list_elem_of_singleton. congruence.
  - split; [done|]. intros k page' Hk. split; [done|].
    intros ->%list_elem_of_singleton. congruence.
Qed.


Lemma renderIndex_total g w r pIdx :
  length (Part000.tmpl g) = 2%nat → is_Some (Part000.renderIndex g w r pIdx).
Proof.
  intros Hlen. unfold Part000.renderIndex.
  destruct (Part000.tmpl g) as [|t0 [|t1 [|]]]; try done; by eexists.
Qed.

Lemma write_total g w r bytes hash :
  length (Part000.tmpl g) = 2%nat → is_Some (Part000.write g w r bytes hash).
Proof.
  intros Hlen. unfold Part000.write.
  destruct (Part000.tmpl g) as [|t0 [|t1 [|]]]; try done.
  destruct (_ && _); [by eexists|]. cbn.
  destruct (GoStrings.Contains _ _); by eexists.
Qed.

Lemma writeError_total g w r err :
  length (Part000.tmpl g) = 2%nat → is_Some (Part000.writeError g w r err).
Proof.
  intros Hlen. unfold Part000.writeError.
  destruct (Part000.tmpl g) as [|t0 [|t1 [|]]]; try done.
  destruct err; by eexists.
Qed.

(** With two template fragments no handler runs out of the bounds of
    [tmpl]: every request gets its response written, whether it is
    answered with a listing, a page, Not Modified or an error page. *)
Theorem renderPage_never_panics disk g w r :
  length (Part000.tmpl g) = 2%nat →
  is_Some (Part000.response (Part000.renderPage opts disk g w r)).
Proof.
  intros Hlen. unfold Part000.renderPage.
  destruct (Part000.indexCache g !! _); cbn; [by apply renderIndex_total|].
  destruct (Part000.cache g !! _); cbn; [by apply write_total|].
  destruct (GetPage disk _); cbn; [by apply write_total|by apply writeError_total].
Qed.

End FrameFacts.

(** ** From startup on *)

Section LifeFacts.
Context `{RT : Runtime} (opts : Part000.Options).

Lemma setupTemplate_running disk g g' :
  Part000.setupTemplate opts disk g = Running g' →
  length (Part000.tmpl g') = 2%nat ∧ Part000.cache g' = ∅ ∧
  Part000.root g' = Part000.root g ∧
  Part000.indexCache g' = Part000.indexCache g.
Proof.
  unfold Part000.setupTemplate. destruct (ReadFile disk _) as [b|]; [|done].
  cbn zeta. case_decide as Hlen; [done|]. intros [= <-]. cbn.
  split_and!; try done;
    by destruct (decide (length (GoBytes.Split b placeholder) = 2%nat)).
Qed.

Lemma setupIndexes_running tree g g' :
  Part000.setupIndexes opts tree g = Running g' →
  Part000.tmpl g' = Part000.tmpl g ∧ Part000.cache g' = Part000.cache g ∧
  Part000.root g' = Part000.root g.
Proof.
  unfold Part000.setupIndexes.
  destruct (Part000.walk opts (Part000.root g) tree ∅) as [ic|msg]; [|done].
  by intros [= <-].
Qed.

(** What [main] leaves when it gets to serve: the root it was given,
    two template fragments, an empty page cache, and the goroutine
    waiting on an empty channel. *)
Lemma main_running absPath disk tree p :
  Part000.main opts absPath disk tree = Running p →
  absPath = Some (Part000.root (Part000.vars p)) ∧
  length (Part000.tmpl (Part000.vars p)) = 2%nat ∧
  Part000.cache (Part000.vars p) = ∅ ∧
  Part000.sigchan p = 0%nat ∧ Part000.listening p = true.
Proof.
  unfold Part000.main. destruct absPath as [r|]; [|done].
  destruct (Part000.setupTemplate opts disk _) as [g1|] eqn:Ht; [|done].
  apply setupTemplate_running in Ht as (Hlen & Hc & Hr & _). cbn.
  destruct (Part000.setupIndexes opts tree g1) as [g2|] eqn:Hi; [|done].
  apply setupIndexes_running in Hi as (Ht' & Hc' & Hr'). cbn.
  intros [= <-]. cbn. rewrite Ht', Hc', Hr', Hr. done.
Qed.

Lemma listener_running disk p p' :
  Part000.listener opts disk p = Some (Running p') →
  length (Part000.tmpl (Part000.vars p')) = 2%nat ∧
  Part000.cache (Part000.vars p') = ∅ ∧
  Part000.listening p = true ∧ Part000.listening p' = false.
Proof.
  unfold Part000.listener.
  destruct (Part000.listening p) eqn:Hl; [|done].
  destruct (0 <? Part000.sigchan p)%nat; [|done]. cbn.
  destruct (Part000.setupTemplate opts disk _) as [g|] eqn:Ht; [|done].
  apply setupTemplate_running in Ht as (Hlen & Hc & _). cbn.
  by intros [= <-].
Qed.

Lemma stepProcess_two_fragments p e p' served :
  length (Part000.tmpl (Part000.vars p)) = 2%nat →
  stepProcess opts p e = Running (p', served) →
  length (Part000.tmpl (Part000.vars p')) = 2%nat ∧
  Forall (λ s, is_Some (Part000.response s)) served.
Proof.
  intros Hlen. destruct e as [disk r|disk]; cbn.
  - intros [= <- <-]. cbn. split.
    + by destruct (renderPage_cache_kept opts disk (Part000.vars p)
                     NewRecorder r) as [-> _].
    + repeat constructor. unfold Part000.renderPage.
      destruct (Part000.indexCache _ !! _); cbn; [by apply renderIndex_total|].
      destruct (Part000.cache _ !! _); cbn; [by apply write_total|].
      destruct (GetPage disk _); cbn;
        [by apply write_total|by apply writeError_total].
  - destruct (Part000.listener opts disk (Part000.notify p)) as [[p1|msg]|] eqn:Hrun;
      cbn; [|done|].
    + intros [= <- <-]. by apply listener_running in Hrun as (? & _).
    + by intros [= <- <-].
Qed.

Lemma runProcess_two_fragments es p p' served :
  length (Part000.tmpl (Part000.vars p)) = 2%nat →
  runProcess opts p es = Running (p', served) →
  length (Part000.tmpl (Part000.vars p')) = 2%nat ∧
  Forall (λ s, is_Some (Part000.response s)) served.
Proof.
  revert p p' served. induction es as [|e es IH]; intros p p' served Hlen; cbn.
  - by intros [= <- <-].
  - destruct (stepProcess opts p e) as [[p1 s1]|msg] eqn:Hstep; cbn; [|done].
    apply stepProcess_two_fragments in Hstep as [Hlen1 Hs1]; [|done].
    destruct (runProcess opts p1 es) as [[p2 s2]|msg] eqn:Hrun; cbn; [|done].
    apply IH in Hrun as [Hlen2 Hs2]; [|done].
    intros [= <- <-]. split; [done|]. by apply Forall_app.
Qed.

(** Once [main] has got to serve, whatever requests and signals come,
    for as long as the process lives the template has two fragments and
    every request gets its response written: no handler panics. *)
Theorem served_after_startup absPath disk tree p es p' served :
  Part000.main opts absPath disk tree = Running p →
  runProcess opts p es = Running (p', served) →
  length (Part000.tmpl (Part000.vars p')) = 2%nat ∧
  Forall (λ s, is_Some (Part000.response s)) served.
Proof.
  intros Hmain Hrun. apply main_running in Hmain as (_ & Hlen & _).
  by apply (runProcess_two_fragments es p).
Qed.

Lemma runProcess_signals_ignored es p :
  Part000.listening p = false →
  Forall isSig es →
  ∃ p', runProcess opts p es = Running (p', []) ∧
        Part000.vars p' = Part000.vars p ∧ Part000.listening p' = false.
Proof.
  intros Hl Hes. revert p Hl.
  induction Hes as [|e es He _ IH]; intros p Hl; cbn.
  - by eexists.
  - destruct e as [|disk]; [done|]. cbn. unfold Part000.listener. cbn.
    rewrite Hl. cbn.
    destruct (IH (Part000.notify p) Hl) as (p' & -> & Hv & Hl'). cbn.
    by eexists.
Qed.

(** The goroutine reloads once: when it has taken a signal and the
    process lives on, no later signal changes any variable, however many
    come and whatever the template on disk has become. *)
Theorem reload_happens_once disk p p' es :
  Part000.listener opts disk p = Some (Running p') →
  Forall isSig es →
  ∃ p'', runProcess opts p' es = Running (p'', []) ∧
         Part000.vars p'' = Part000.vars p'.
Proof.
  intros Hrun Hes. apply listener_running in Hrun as (_ & _ & _ & Hl).
  destruct (runProcess_signals_ignored es p' Hl Hes) as (p'' & ? & ? & _).
  by exists p''.
Qed.

(** Between reloads a page in the cache stays what it is and is never
    rendered again: over any sequence of requests the cache keeps the
    page for its path and the renderer is not called for that path,
    whatever the document on disk has become. *)
Theorem cached_page_served_until_reload es p k page :
  Part000.cache (Part000.vars p) !! k = Some page →
  Forall isReq es →
  ∃ p' served, runProcess opts p es = Running (p', served) ∧
    Part000.cache (Part000.vars p') !! k = Some page ∧
    Forall (λ s, k ∉ Part000.rendered s) served ∧
    length served = length es.
Proof.
  intros Hk Hes. revert p Hk.
  induction Hes as [|e es He _ IH]; intros p Hk; cbn.
  - by exists p, [].
  - destruct e as [disk r|]; [|done]. cbn.
    destruct (renderPage_cache_kept opts disk (Part000.vars p) NewRecorder r)
      as [_ Hkeep].
    destruct (Hkeep k page Hk) as [Hkept Hcalls].
    set (s := Part000.renderPage opts disk (Part000.vars p) NewRecorder r) in *.
    destruct (IH {| Part000.vars := Part000.globals s;
                    Part000.sigchan := Part000.sigchan p;
                    Part000.listening := Part000.listening p |})
      as (p' & served & -> & Hk' & Hnot & Hlen); [done|].
    cbn. exists p', (s :: served). split_and!; try done.
    + by constructor.
    + cbn. by rewrite Hlen.
Qed.

(** A reload that finds a template it cannot use ends the process: the
    signal that comes while the goroutine waits is fatal when the
    template file cannot be read or does not hold the placeholder
    exactly once. *)
Theorem reload_with_bad_template_is_fatal disk p :
  Part000.listening p = true →
  match ReadFile disk (GoPath.Join [Part000.root (Part000.vars p);
                                    Part000.optTemplate opts]) with
  | None =>
      runProcess opts p [Sig disk] = Fatal "Could not read template: "
  | Some b =>
      occurrences placeholder b ≠ 1%nat →
      runProcess opts p [Sig disk] = Fatal "Template was not in a valid format"
  end.
Proof.
  intros Hl. cbn. unfold Part000.listener.
  assert (Hsig : (0 <? Part000.sigchan (Part000.notify p))%nat = true).
  { unfold Part000.notify. cbn [Part000.sigchan].
    destruct (Part000.sigchan p <? 1)%nat eqn:Hn; [done|].
    apply Nat.ltb_ge in Hn. by apply Nat.ltb_lt. }
  rewrite Hsig. cbn [Part000.notify Part000.listening Part000.vars]. rewrite Hl.
  cbn. unfold Part000.setupTemplate.
  destruct (ReadFile disk _) as [b|]; [|done].
  intros Hocc. cbn zeta. rewrite <- Split_two_iff in Hocc. by case_decide.
Qed.

End LifeFacts.

(** ** Entity tags *)

Lemma EqualFold_refl s : GoStrings.EqualFold s s = true.
Proof.
  induction s as [|c s IH]; [done|]. cbn [GoStrings.EqualFold].
  by rewrite Ascii.eqb_refl, IH.
Qed.

Lemma Get_lookup (h : Header) key v : h !! key = Some [v] → Get h key = v.
Proof. unfold Get. by intros ->. Qed.

Section EtagFacts.
Context `{RT : Runtime}.

Lemma write_sets_etag g r bytes hash pre suf :
  Part000.tmpl g = [pre; suf] →
  hash ≠ EmptyString →
  GoStrings.EqualFold (Get (ReqHeader r) "If-None-Match") hash = false →
  ∃ w', Part000.write g NewRecorder r bytes hash = Some w' ∧
        header w' !! "Etag" = Some [hash].
Proof.
  intros Ht Hhash%slen_pos_iff Hne.
  eexists. split; [apply (write_composed _ _ _ _ _ pre suf Ht); by rewrite Hhash, Hne|].
  rewrite Hhash.
  destruct (GoStrings.Contains _ _);
    rewrite ?header_WriteTo, ?Write_spec; simpl;
    repeat (rewrite lookup_insert_eq || (rewrite lookup_insert_ne by done));
    done.
Qed.

Lemma main_write_sets_etag g r page pre suf :
  MainGo.tmpl g = [pre; suf] →
  GoStrings.EqualFold (Get (ReqHeader r) "If-None-Match") (Hash page) = false →
  ∃ w', MainGo.write g NewRecorder r page = Some w' ∧
        header w' !! "Etag" = Some [Hash page].
Proof.
  intros Ht Hne.
  eexists. split; [by apply main_write_composed|].
  destruct (GoStrings.Contains _ _);
    rewrite ?header_WriteTo, ?Write_spec; simpl;
    repeat (rewrite lookup_insert_eq || (rewrite lookup_insert_ne by done));
    done.
Qed.

(** The entity tag comes back: a client that sends the [Etag] it got
    with a page as [If-None-Match] of its next request for that page is
    answered with Not Modified and nothing else, in both revisions (in
    the one with the indexes, for a page that has a fingerprint). *)
Theorem etag_sent_back_gives_not_modified :
  (∀ g r r' bytes hash pre suf,
     Part000.tmpl g = [pre; suf] →
     hash ≠ EmptyString →
     GoStrings.EqualFold (Get (ReqHeader r) "If-None-Match") hash = false →
     ∃ w', Part000.write g NewRecorder r bytes hash = Some w' ∧
       (Get (ReqHeader r') "If-None-Match" = Get (header w') "Etag" →
        Part000.write g NewRecorder r' bytes hash
        = Some {| code := Some StatusNotModified; header := ∅;
                  body := EmptyString |})) ∧
  (∀ g r r' page pre suf,
     MainGo.tmpl g = [pre; suf] →
     GoStrings.EqualFold (Get (ReqHeader r) "If-None-Match") (Hash page) = false →
     ∃ w', MainGo.write g NewRecorder r page = Some w' ∧
       (Get (ReqHeader r') "If-None-Match" = Get (header w') "Etag" →
        MainGo.write g NewRecorder r' page
        = Some {| code := Some StatusNotModified; header := ∅;
                  body := EmptyString |})).
Proof.
  split.
  - intros g r r' bytes hash pre suf Ht Hhash Hne.
    destruct (write_sets_etag g r bytes hash pre suf Ht Hhash Hne) as (w' & Hw & Hetag).
    exists w'. split; [done|]. intros Hback.
    rewrite (Get_lookup _ _ _ Hetag) in Hback. unfold Part000.write.
    apply slen_pos_iff in Hhash. by rewrite Hhash, Hback, EqualFold_refl.
  - intros g r r' page pre suf Ht Hne.
    destruct (main_write_sets_etag g r page pre suf Ht Hne) as (w' & Hw & Hetag).
    exists w'. split; [done|]. intros Hback.
    rewrite (Get_lookup _ _ _ Hetag) in Hback. unfold MainGo.write.
    by rewrite Hback, EqualFold_refl.
Qed.

Lemma writeError_alike gm g w r err :
  MainGo.tmpl gm = Part000.tmpl g →
  MainGo.writeError gm w r err = Part000.writeError g w r err.
Proof. intros Ht. unfold MainGo.writeError, Part000.writeError. by rewrite Ht. Qed.

(** The two revisions compose the same response for a page that has a
    fingerprint, and the same error page for every failure. *)
Theorem revisions_write_alike gm g w r page err :
  MainGo.tmpl gm = Part000.tmpl g →
  (Hash page ≠ EmptyString →
   MainGo.write gm w r page = Part000.write g w r (Content page) (Hash page)) ∧
  MainGo.writeError gm w r err = Part000.writeError g w r err.
Proof.
  intros Ht. split.
  - intros Hhash%slen_pos_iff. unfold MainGo.write, Part000.write.
    by rewrite Hhash, Ht.
  - by apply writeError_alike.
Qed.

End EtagFacts.

(** ** The fragments of the template *)

Lemma HasPrefix_stake n s sep :
  GoStrings.HasPrefix (stake n s) sep = true → GoStrings.HasPrefix s sep = true.
Proof.
  revert n s. induction sep as [|a sep IH]; intros n s; [done|].
  destruct n as [|n], s as [|b s]; cbn; try done.
  intros [Hab H]%andb_prop. rewrite Hab. cbn. by apply (IH n).
Qed.

(** Before its first occurrence the separator does not occur. *)
Lemma Index_Some_before s sep m :
  sep ≠ EmptyString →
  GoStrings.Index s sep = Some m →
  occurrences sep (stake m s) = 0%nat.
Proof.
  intros Hsep. revert m. induction s as [|c s IH]; intros m.
  - destruct sep; [done|]. by destruct m.
  - cbn [GoStrings.Index].
    destruct (GoStrings.HasPrefix (String c s) sep) eqn:Hp.
    + intros [= <-]. by destruct sep.
    + destruct (GoStrings.Index s sep) as [m'|] eqn:Hi; [|done].
      intros [= <-]. cbn [stake occurrences]. rewrite (IH m') by done.
      destruct (GoStrings.HasPrefix (String c (stake m' s)) sep) eqn:Hp'; [|done].
      apply (HasPrefix_stake (S m') (String c s)) in Hp'. congruence.
Qed.

Lemma Split_two_clean b :
  occurrences placeholder b = 1%nat →
  ∃ pre suf, GoBytes.Split b placeholder = [pre; suf] ∧
             b = pre +:+ placeholder +:+ suf ∧
             occurrences placeholder pre = 0%nat ∧
             occurrences placeholder suf = 0%nat.
Proof.
  intros Hocc. pose proof (Split_length b) as Hlen. rewrite Hocc in Hlen.
  change (GoBytes.Split b placeholder)
    with (GoBytes.genSplit (slen b) b placeholder) in *.
  destruct (slen b) as [|fuel]; cbn [GoBytes.genSplit] in *; [done|].
  destruct (GoStrings.Index b placeholder) as [m|] eqn:Hi; [|done].
  pose proof (Index_Some_before b placeholder m ltac:(done) Hi) as Hpre.
  apply Index_Some in Hi as [Hp Hsame].
  cbn [length] in Hlen. injection Hlen as Hlen.
  exists (stake m b), (sdrop (m + slen placeholder) b). split_and!.
  - f_equal. by apply genSplit_one.
  - rewrite <- sdrop_sdrop.
    by rewrite <- (HasPrefix_app _ _ Hp), stake_sdrop.
  - done.
  - rewrite Hsame, (occurrences_at_placeholder _ Hp), sdrop_sdrop in Hocc.
    by injection Hocc.
Qed.

Section FragmentFacts.
Context `{RT : Runtime}.

(** A template that loads is cut at its one placeholder: the two
    fragments with the placeholder between them are the file, neither
    fragment holds a placeholder, the hash kept is the hash of that file,
    and the page cache is empty. *)
Theorem setupTemplate_fragments opts disk g g' :
  Part000.setupTemplate opts disk g = Running g' →
  ∃ b pre suf,
    ReadFile disk (GoPath.Join [Part000.root g; Part000.optTemplate opts]) = Some b ∧
    b = pre +:+ placeholder +:+ suf ∧
    Part000.tmpl g' = [pre; suf] ∧
    occurrences placeholder pre = 0%nat ∧
    occurrences placeholder suf = 0%nat ∧
    Part000.tmplHash g' = Part000.hash (pre +:+ placeholder +:+ suf) ∧
    Part000.cache g' = ∅.
Proof.
  unfold Part000.setupTemplate.
  destruct (ReadFile disk _) as [b|]; [|done]. cbn zeta.
  case_decide as Hlen; [done|]. intros [= <-]. cbn.
  assert (Hocc : occurrences placeholder b = 1%nat).
  { apply Split_two_iff. by destruct (decide (length (GoBytes.Split b placeholder) = 2%nat)). }
  destruct (Split_two_clean b Hocc) as (pre & suf & Hsplit & Hb & Hpre & Hsuf).
  exists b, pre, suf. split_and!; try done. by rewrite <- Hb.
Qed.

End FragmentFacts.

(** ** Directory requests *)

Lemma LastIndex_slash_file d f :
  GoStrings.LastIndex f "/" = None →
  GoStrings.LastIndex (d +:+ "/" +:+ f) "/" = Some (slen d).
Proof.
  intros Hf. induction d as [|c d IH].
  - rewrite sapp_nil_l. change ("/" +:+ f) with (String "/" f).
    cbn [GoStrings.LastIndex]. by rewrite Hf.
  - rewrite sapp_cons. cbn [GoStrings.LastIndex]. by rewrite IH.
Qed.

Lemma stake_app d s : stake (slen d) (d +:+ s) = d.
Proof. induction d as [|c d IH]; [by destruct s|]. rewrite sapp_cons. cbn. by rewrite IH. Qed.

Lemma sdrop_app d s : sdrop (slen d) (d +:+ s) = s.
Proof. induction d as [|c d IH]; [done|]. by rewrite sapp_cons. Qed.

(** [path.Split] cuts after the last slash. *)
Lemma path_Split_dir_file d f :
  GoStrings.LastIndex f "/" = None →
  GoPath.Split (d +:+ "/" +:+ f) = (d +:+ "/", f).
Proof.
  intros Hf. unfold GoPath.Split. rewrite (LastIndex_slash_file d f Hf).
  assert (Hlen : S (slen d) = slen (d +:+ "/")) by (rewrite slen_app; cbn; lia).
  rewrite Hlen, <- sapp_assoc. by rewrite stake_app, sdrop_app.
Qed.

Section DirectoryFacts.
Context `{RT : Runtime}.

(** A path that ends with a slash and the same path with the default
    document name after it are one and the same request: the same
    listing or page, the same calls of the renderer, the same entry in
    the page cache. *)
Theorem directory_request_is_default_document opts disk g w d h :
  GoStrings.LastIndex (Part000.optDefault opts) "/" = None →
  Part000.candidate opts g (d +:+ "/")
  = GoPath.Join [Part000.root g; d +:+ "/"; Part000.optDefault opts] ∧
  Part000.renderPage opts disk g w {| URLPath := d +:+ "/"; ReqHeader := h |}
  = Part000.renderPage opts disk g w
      {| URLPath := d +:+ "/" +:+ Part000.optDefault opts; ReqHeader := h |}.
Proof.
  intros Hdef.
  assert (H1 : Part000.candidate opts g (d +:+ "/")
               = GoPath.Join [Part000.root g; d +:+ "/"; Part000.optDefault opts]).
  { unfold Part000.candidate.
    rewrite <- (sapp_nil_r "/") at 1. rewrite (path_Split_dir_file d EmptyString) by done.
    destruct (decide (d +:+ "/" = EmptyString)) as [He|_]; [|done].
    by apply sapp_eq_nil in He as [_ ?]. }
  assert (H2 : Part000.candidate opts g (d +:+ "/" +:+ Part000.optDefault opts)
               = GoPath.Join [Part000.root g; d +:+ "/"; Part000.optDefault opts]).
  { unfold Part000.candidate. rewrite (path_Split_dir_file d _ Hdef).
    destruct (decide (d +:+ "/" = EmptyString)) as [He|_].
    { by apply sapp_eq_nil in He as [_ ?]. }
    by destruct (decide (Part000.optDefault opts = EmptyString)) as [->|_]. }
  split; [done|].
  unfold Part000.renderPage. cbn [URLPath]. by rewrite H1, H2.
Qed.

End DirectoryFacts.

(** ** What the walk indexes *)

Section IndexCacheFacts.
Context `{RT : Runtime} (opts : Part000.Options).

Lemma visible_file_iff path name content fp ct :
  visible opts path (File name content) fp ct ↔
  name = Part000.optDefault opts +:+ ".json" ∧ fp = path ∧ ct = content.
Proof.
  split.
  - by inversion 1.
  - intros (? & -> & ->). by constructor.
Qed.

Lemma visible_dir_iff path name children fp ct :
  visible opts path (Dir name children) fp ct ↔
  GoStrings.HasPrefix name "." = false ∧
  ∃ c, c ∈ children ∧ visible opts (GoPath.Join [path; nodeName c]) c fp ct.
Proof.
  split.
  - inversion 1; subst. eauto.
  - intros (? & c & ? & ?). by eapply visible_dir.
Qed.

Lemma walk_visible n : ∀ path ic,
  match Part000.walk opts path n ic with
  | Running ic' =>
      (∀ k, is_Some (ic' !! k) ↔
            is_Some (ic !! k) ∨ ∃ ct, visible opts path n k ct) ∧
      (∀ fp ct, visible opts path n fp ct → decodes ct)
  | Fatal _ => ∃ fp ct, visible opts path n fp ct ∧ ¬ decodes ct
  end.
Proof.
  induction n as [name content|name children Hall] using node_forall_ind;
    intros path ic.
  - cbn [Part000.walk]. case_decide as Hname.
    + destruct content as [bytes|].
      * destruct (jsonDecode bytes) as [pages|] eqn:Hdec.
        -- split.
           ++ intros k. rewrite lookup_insert_is_Some. split.
              ** intros [->|[_ ?]]; [|by left]. right. exists (Some bytes).
                 by apply visible_file_iff.
              ** intros [?|[ct (_ & -> & _)%visible_file_iff]].
                 --- destruct (decide (path = k)); [by left|by right].
                 --- by left.
           ++ intros fp ct (_ & _ & ->)%visible_file_iff. by exists bytes, pages.
        -- exists path, (Some bytes). split; [by apply visible_file_iff|].
           intros (bytes' & pages & [= <-] & ?). congruence.
      * exists path, None. split; [by apply visible_file_iff|].
        by intros (? & ? & ? & _).
    + split.
      * intros k. split; [by left|]. intros [?|[ct (? & _)%visible_file_iff]]; done.
      * by intros fp ct (? & _)%visible_file_iff.
  - cbn [Part000.walk]. destruct (GoStrings.HasPrefix name ".") eqn:Hhid.
    + split.
      * intros k. split; [by left|].
        intros [?|[ct (? & _)%visible_dir_iff]]; [done|congruence].
      * intros fp ct (? & _)%visible_dir_iff. congruence.
    + assert (Heach : ∀ ic,
        match (fix each (l : list node) (ic : gmap string (list PageIndex)) :=
                 match l with
                 | [] => Running ic
                 | c :: l' =>
                     match Part000.walk opts (GoPath.Join [path; nodeName c]) c ic with
                     | Running ic' => each l' ic'
                     | Fatal msg => Fatal msg
                     end
                 end) children ic with
        | Running ic' =>
            (∀ k, is_Some (ic' !! k) ↔
                  is_Some (ic !! k) ∨
                  ∃ ct c, c ∈ children ∧
                          visible opts (GoPath.Join [path; nodeName c]) c k ct) ∧
            (∀ fp ct c, c ∈ children →
                        visible opts (GoPath.Join [path; nodeName c]) c fp ct →
                        decodes ct)
        | Fatal _ =>
            ∃ fp ct c, c ∈ children ∧
                       visible opts (GoPath.Join [path; nodeName c]) c fp ct ∧
                       ¬ decodes ct
        end).
      { induction Hall as [|c l Hc _ IH]; intros ic0.
        - split.
          + intros k. split; [by left|].
            intros [?|(ct & c & ?%elem_of_nil & _)]; done.
          + by intros fp ct c ?%elem_of_nil.
        - specialize (Hc (GoPath.Join [path; nodeName c]) ic0).
          destruct (Part000.walk opts (GoPath.Join [path; nodeName c]) c ic0)
            as [ic1|msg].
          + destruct Hc as [Hkeys Hdec]. specialize (IH ic1).
            destruct ((fix each (l : list node) (ic : gmap string (list PageIndex)) :=
                         match l with
                         | [] => Running ic
                         | c :: l' =>
                             match Part000.walk opts
                                     (GoPath.Join [path; nodeName c]) c ic with
                             | Running ic' => each l' ic'
                             | Fatal msg => Fatal msg
                             end
                         end) l ic1) as [ic2|msg].
            * destruct IH as [Hkeys' Hdec']. split.
              -- intros k. rewrite Hkeys', Hkeys. split.
                 ++ intros [[?|[ct ?]]|(ct & c' & ? & ?)].
                    ** by left.
                    ** right. exists ct, c. split; [by left|done].
                    ** right. exists ct, c'. split; [by right|done].
                 ++ intros [?|(ct & c' & [->|?]%elem_of_cons & ?)].
                    ** by left; left.
                    ** left. right. by exists ct.
                    ** right. by exists ct, c'.
              -- intros fp ct c' [->|?]%elem_of_cons Hv; [by eapply Hdec|by eapply Hdec'].
            * destruct IH as (fp & ct & c' & ? & ? & ?).
              exists fp, ct, c'. split; [by right|done].
          + destruct Hc as (fp & ct & ? & ?).
            exists fp, ct, c. split; [by left|done]. }
      specialize (Heach ic).
      destruct ((fix each (l : list node) (ic : gmap string (list PageIndex)) :=
                   match l with
                   | [] => Running ic
                   | c :: l' =>
                       match Part000.walk opts (GoPath.Join [path; nodeName c]) c ic with
                       | Running ic' => each l' ic'
                       | Fatal msg => Fatal msg
                       end
                   end) children ic) as [ic'|msg].
      * destruct Heach as [Hkeys Hdec]. split.
        -- intros k. rewrite Hkeys. split.
           ++ intros [?|(ct & c & ? & ?)]; [by left|].
              right. exists ct. apply visible_dir_iff. eauto.
           ++ intros [?|[ct (_ & c & ? & ?)%visible_dir_iff]]; [by left|].
              right. by exists ct, c.
        -- intros fp ct (_ & c & ? & ?)%visible_dir_iff. by eapply Hdec.
      * destruct Heach as (fp & ct & c & ? & ? & ?).
        exists fp, ct. split; [|done]. apply visible_dir_iff. eauto.
Qed.

(** The index cache after startup holds exactly the descriptors that
    are named as the default document with [.json] and lie under no
    directory whose name starts with a dot, each under its path, and
    every one of them could be opened and decoded; and startup ends at
    [setupIndexes] only if one of those descriptors cannot be opened or
    decoded: what lies under a hidden directory is never read. *)
Theorem setupIndexes_indexes_what_is_visible tree g :
  match Part000.setupIndexes opts tree g with
  | Running g' =>
      (∀ k, is_Some (Part000.indexCache g' !! k) ↔
            ∃ ct, visible opts (Part000.root g) tree k ct) ∧
      (∀ fp ct, visible opts (Part000.root g) tree fp ct → decodes ct) ∧
      Part000.cache g' = Part000.cache g ∧ Part000.tmpl g' = Part000.tmpl g
  | Fatal _ =>
      ∃ fp ct, visible opts (Part000.root g) tree fp ct ∧ ¬ decodes ct
  end.
Proof.
  unfold Part000.setupIndexes.
  pose proof (walk_visible tree (Part000.root g) ∅) as H.
  destruct (Part000.walk opts (Part000.root g) tree ∅) as [ic|msg]; cbn; [|done].
  destruct H as [Hkeys Hdec]. split_and!; try done.
  intros k. rewrite Hkeys, lookup_empty. split.
  - by intros [[? [=]]|?].
  - by right.
Qed.

End IndexCacheFacts.

(** ** The revision with the debug flag *)

Section DebugFacts.
Context `{RT : Runtime} (opts : MainGo.Options).

(** With the debug flag the page cache stays empty: a request changes
    no variable and always calls the renderer, once, with the document
    path of the request. *)
Theorem renderer_debug_always_renders disk g w r :
  MainGo.optDebug opts = true →
  MainGo.cache g = ∅ →
  MainGo.globals (MainGo.renderer opts disk g w r) = g ∧
  MainGo.rendered (MainGo.renderer opts disk g w r)
  = [MainGo.documentPath opts g (URLPath r)].
Proof.
  intros Hdbg Hempty. unfold MainGo.renderer. rewrite Hempty, lookup_empty, Hdbg.
  by destruct (GetPage disk _).
Qed.


End DebugFacts.

(** ** These properties on the small site *)


Lemma renderPage_never_panics_witness :
  is_Some (Part000.response
             (Part000.renderPage (RT := Demo.runtime) Demo.opts Demo.disk Demo.site
                NewRecorder (Demo.get "/missing" Demo.conditionalGzip))).
Proof.
  apply (renderPage_never_panics (RT := Demo.runtime)). reflexivity.
Defined.

Lemma served_after_startup_witness :
  ∃ p p' served,
    Part000.main (RT := Demo.runtime) Demo.opts (Some "/srv/www") Demo.disk Demo.tree
    = Running p ∧
    runProcess (RT := Demo.runtime) Demo.opts p
      [@Req Demo.runtime Demo.disk (Demo.get "/about" ∅);
       @Sig Demo.runtime Demo.disk2;
       @Req Demo.runtime Demo.disk2 (Demo.get "/blog/" ∅)]
    = Running (p', served) ∧
    length (Part000.tmpl (Part000.vars p')) = 2%nat ∧
    Forall (λ s, is_Some (Part000.response s)) served.
Proof.
  set (p := {| Part000.vars := Demo.site; Part000.sigchan := 0;
               Part000.listening := true |}).
  assert (Hmain : Part000.main (RT := Demo.runtime) Demo.opts (Some "/srv/www")
                    Demo.disk Demo.tree = Running p) by (vm_compute; reflexivity).
  set (es := [@Req Demo.runtime Demo.disk (Demo.get "/about" ∅);
              @Sig Demo.runtime Demo.disk2;
              @Req Demo.runtime Demo.disk2 (Demo.get "/blog/" ∅)]).
  destruct (runProcess (RT := Demo.runtime) Demo.opts p es) as [[p' served]|msg] eqn:Hrun.
  - exists p, p', served. split; [exact Hmain|]. split; [exact Hrun|].
    exact (served_after_startup (RT := Demo.runtime) Demo.opts _ _ _ p es p' served
             Hmain Hrun).
  - vm_compute in Hrun. discriminate Hrun.
Defined.

Lemma reload_with_bad_template_is_fatal_witness :
  runProcess (RT := Demo.runtime) Demo.opts
    {| Part000.vars := Demo.warmSite; Part000.sigchan := 0; Part000.listening := true |}
    [@Sig Demo.runtime Demo.brokenDisk]
  = Fatal "Template was not in a valid format".
Proof.
  pose proof (reload_with_bad_template_is_fatal (RT := Demo.runtime) Demo.opts
                Demo.brokenDisk
                {| Part000.vars := Demo.warmSite; Part000.sigchan := 0;
                   Part000.listening := true |} eq_refl) as H.
  assert (Hread : ReadFile (Runtime := Demo.runtime) Demo.brokenDisk
                    (GoPath.Join [Part000.root Demo.warmSite;
                                  Part000.optTemplate Demo.opts])
                  = Some "<body>{{content}}{{content}}</body>")
    by (vm_compute; reflexivity).
  cbn [Part000.vars] in H. rewrite Hread in H. apply H.
  vm_compute. discriminate.
Defined.

Lemma reload_happens_once_witness :
  ∃ p' p'',
    Part000.listener (RT := Demo.runtime) Demo.opts Demo.disk2
      (Part000.notify {| Part000.vars := Demo.warmSite; Part000.sigchan := 0;
                         Part000.listening := true |}) = Some (Running p') ∧
    runProcess (RT := Demo.runtime) Demo.opts p'
      [@Sig Demo.runtime Demo.disk; @Sig Demo.runtime Demo.brokenDisk]
    = Running (p'', []) ∧
    Part000.vars p'' = Part000.vars p' ∧
    Part000.tmpl (Part000.vars p'') = ["<main>"; "</main>"].
Proof.
  set (p := Part000.notify {| Part000.vars := Demo.warmSite; Part000.sigchan := 0;
                              Part000.listening := true |}).
  set (p' := {| Part000.vars :=
                  {| Part000.root := "/srv/www"; Part000.cache := ∅;
                     Part000.indexCache := Part000.indexCache Demo.warmSite;
                     Part000.tmpl := ["<main>"; "</main>"];
                     Part000.tmplHash := "md5:<main>{{content}}</main>" |};
                Part000.sigchan := 0; Part000.listening := false |}).
  assert (Hrun : Part000.listener (RT := Demo.runtime) Demo.opts Demo.disk2 p
                 = Some (Running p')) by (vm_compute; reflexivity).
  assert (Hes : Forall (isSig (RT := Demo.runtime))
                  [@Sig Demo.runtime Demo.disk; @Sig Demo.runtime Demo.brokenDisk])
    by (repeat constructor).
  destruct (reload_happens_once (RT := Demo.runtime) Demo.opts Demo.disk2 p p' _
              Hrun Hes) as (p'' & Hrun' & Hvars).
  exists p', p''. split; [exact Hrun|]. split; [exact Hrun'|].
  split; [exact Hvars|]. rewrite Hvars. reflexivity.
Defined.

Lemma cached_page_served_until_reload_witness :
  ∃ p' served,
    runProcess (RT := Demo.runtime) Demo.opts
      {| Part000.vars := Demo.warmSite; Part000.sigchan := 0; Part000.listening := true |}
      [@Req Demo.runtime Demo.disk2 (Demo.get "/about" ∅);
       @Req Demo.runtime Demo.disk2 (Demo.get "/missing" ∅)]
    = Running (p', served) ∧
    Part000.cache (Part000.vars p') !! "/srv/www/about.md" = Some Demo.aboutPage ∧
    Forall (λ s, "/srv/www/about.md" ∉ Part000.rendered s) served ∧
    length served = 2%nat.
Proof.
  assert (Hk : Part000.cache Demo.warmSite !! "/srv/www/about.md" = Some Demo.aboutPage)
    by (vm_compute; reflexivity).
  assert (Hes : Forall (isReq (RT := Demo.runtime))
                  [@Req Demo.runtime Demo.disk2 (Demo.get "/about" ∅);
                   @Req Demo.runtime Demo.disk2 (Demo.get "/missing" ∅)])
    by (repeat constructor).
  exact (cached_page_served_until_reload (RT := Demo.runtime) Demo.opts _
           {| Part000.vars := Demo.warmSite; Part000.sigchan := 0;
              Part000.listening := true |} "/srv/www/about.md" Demo.aboutPage Hk Hes).
Defined.

Lemma etag_sent_back_gives_not_modified_witness :
  (∃ w', Part000.write (RT := Demo.runtime) Demo.site NewRecorder (Demo.get "/about" ∅)
           "<p>About us</p>" "c0ffee" = Some w' ∧
         Part000.write (RT := Demo.runtime) Demo.site NewRecorder
           (Demo.get "/about" (<["If-None-Match" := ["c0ffee"]]> ∅))
           "<p>About us</p>" "c0ffee"
         = Some {| code := Some StatusNotModified; header := ∅; body := EmptyString |}) ∧
  (∃ w', MainGo.write (RT := Demo.runtime) Demo.mainSite NewRecorder
           (Demo.get "/about" ∅) Demo.aboutPage = Some w' ∧
         MainGo.write (RT := Demo.runtime) Demo.mainSite NewRecorder
           (Demo.get "/about" (<["If-None-Match" := ["c0ffee"]]> ∅)) Demo.aboutPage
         = Some {| code := Some StatusNotModified; header := ∅; body := EmptyString |}).
Proof.
  destruct (etag_sent_back_gives_not_modified (RT := Demo.runtime)) as [Hidx Hmain].
  assert (Hne : GoStrings.EqualFold
                  (Get (ReqHeader (Demo.get "/about" ∅)) "If-None-Match") "c0ffee"
                = false) by (vm_compute; reflexivity).
  assert (Hhash : "c0ffee" ≠ EmptyString) by discriminate.
  split.
  - destruct (Hidx Demo.site (Demo.get "/about" ∅)
                (Demo.get "/about" (<["If-None-Match" := ["c0ffee"]]> ∅))
                "<p>About us</p>" "c0ffee" "<body>" "</body>" eq_refl Hhash Hne)
      as (w' & Hw & Hback).
    exists w'. split; [exact Hw|]. apply Hback.
    assert (Hw' := Hw). vm_compute in Hw'. injection Hw' as <-.
    vm_compute. reflexivity.
  - destruct (Hmain Demo.mainSite (Demo.get "/about" ∅)
                (Demo.get "/about" (<["If-None-Match" := ["c0ffee"]]> ∅))
                Demo.aboutPage "<body>" "</body>" eq_refl Hne)
      as (w' & Hw & Hback).
    exists w'. split; [exact Hw|]. apply Hback.
    assert (Hw' := Hw). vm_compute in Hw'. injection Hw' as <-.
    vm_compute. reflexivity.
Defined.

Lemma revisions_write_alike_witness :
  MainGo.write (RT := Demo.runtime) Demo.mainSite NewRecorder
    (Demo.get "/about" Demo.acceptGzip) Demo.aboutPage
  = Part000.write (RT := Demo.runtime) Demo.site NewRecorder
      (Demo.get "/about" Demo.acceptGzip) (Content Demo.aboutPage) (Hash Demo.aboutPage).
Proof.
  destruct (revisions_write_alike (RT := Demo.runtime) Demo.mainSite Demo.site
              NewRecorder (Demo.get "/about" Demo.acceptGzip) Demo.aboutPage
              (otherError "none") eq_refl) as [Hwrite _].
  apply Hwrite. discriminate.
Defined.

Lemma setupTemplate_fragments_witness :
  ∃ b pre suf,
    ReadFile (Runtime := Demo.runtime) Demo.disk2
      (GoPath.Join [Part000.root Demo.warmSite; Part000.optTemplate Demo.opts]) = Some b ∧
    b = pre +:+ placeholder +:+ suf ∧
    Part000.tmpl
      {| Part000.root := "/srv/www"; Part000.cache := ∅;
         Part000.indexCache := Part000.indexCache Demo.warmSite;
         Part000.tmpl := ["<main>"; "</main>"];
         Part000.tmplHash := "md5:<main>{{content}}</main>" |} = [pre; suf] ∧
    occurrences placeholder pre = 0%nat ∧
    occurrences placeholder suf = 0%nat.
Proof.
  assert (Hrun : Part000.setupTemplate (RT := Demo.runtime) Demo.opts Demo.disk2
                   Demo.warmSite
                 = Running {| Part000.root := "/srv/www"; Part000.cache := ∅;
                              Part000.indexCache := Part000.indexCache Demo.warmSite;
                              Part000.tmpl := ["<main>"; "</main>"];
                              Part000.tmplHash := "md5:<main>{{content}}</main>" |})
    by (vm_compute; reflexivity).
  destruct (setupTemplate_fragments (RT := Demo.runtime) Demo.opts Demo.disk2
              Demo.warmSite _ Hrun)
    as (b & pre & suf & Hread & Hb & Ht & Hpre & Hsuf & _).
  exists b, pre, suf. repeat split; assumption.
Defined.

Lemma directory_request_is_default_document_witness :
  Part000.candidate Demo.opts Demo.site ("/blog" +:+ "/")
  = GoPath.Join [Part000.root Demo.site; "/blog" +:+ "/"; Part000.optDefault Demo.opts] ∧
  Part000.renderPage (RT := Demo.runtime) Demo.opts Demo.disk Demo.site NewRecorder
    {| URLPath := "/blog" +:+ "/"; ReqHeader := ∅ |}
  = Part000.renderPage (RT := Demo.runtime) Demo.opts Demo.disk Demo.site NewRecorder
      {| URLPath := "/blog" +:+ "/" +:+ Part000.optDefault Demo.opts; ReqHeader := ∅ |}.
Proof.
  apply (directory_request_is_default_document (RT := Demo.runtime)). reflexivity.
Defined.

Lemma candidate_ignores_home_witness :
  Part000.candidate
    {| Part000.optAddr := ":8000"; Part000.optPath := "/srv/www";
       Part000.optStaticDir := "public"; Part000.optTemplate := "template.html";
       Part000.optHomeDir := "blog"; Part000.optDefault := "index";
       Part000.optExt := "md" |} Demo.site "/about"
  = Part000.candidate
      {| Part000.optAddr := ":8000"; Part000.optPath := "/srv/www";
         Part000.optStaticDir := "public"; Part000.optTemplate := "template.html";
         Part000.optHomeDir := EmptyString; Part000.optDefault := "index";
         Part000.optExt := "md" |} Demo.site "/about".
Proof. apply candidate_ignores_home. reflexivity. Defined.

Lemma setupIndexes_indexes_what_is_visible_witness :
  ∃ g', Part000.setupIndexes (RT := Demo.runtime) Demo.opts Demo.tree Demo.warmSite
        = Running g' ∧
        is_Some (Part000.indexCache g' !! "/srv/www/blog/index.json") ∧
        decodes (RT := Demo.runtime) (Some "A,B").
Proof.
  pose proof (setupIndexes_indexes_what_is_visible (RT := Demo.runtime) Demo.opts
                Demo.tree Demo.warmSite) as H.
  assert (Hvis : visible Demo.opts (Part000.root Demo.warmSite)
                   Demo.tree "/srv/www/blog/index.json" (Some "A,B")).
  { apply visible_dir
      with (c := Dir "blog" [File "index.json" (Some "A,B")]);
      [reflexivity|by repeat constructor|].
    apply visible_dir with (c := File "index.json" (Some "A,B"));
      [reflexivity|by repeat constructor|].
    apply visible_file_iff. split_and!; vm_compute; reflexivity. }
  destruct (Part000.setupIndexes (RT := Demo.runtime) Demo.opts Demo.tree Demo.warmSite)
    as [g'|msg] eqn:Hrun.
  - destruct H as (Hkeys & Hdec & _). exists g'. split; [reflexivity|]. split.
    + apply Hkeys. by exists (Some "A,B").
    + exact (Hdec _ _ Hvis).
  - vm_compute in Hrun. discriminate Hrun.
Defined.

Lemma renderer_debug_always_renders_witness :
  MainGo.globals
    (MainGo.renderer (RT := Demo.runtime) (Demo.mainOpts true) Demo.disk Demo.mainSite
       NewRecorder (Demo.get "/about" ∅)) = Demo.mainSite ∧
  MainGo.rendered
    (MainGo.renderer (RT := Demo.runtime) (Demo.mainOpts true) Demo.disk Demo.mainSite
       NewRecorder (Demo.get "/about" ∅))
  = [MainGo.documentPath (Demo.mainOpts true) Demo.mainSite
       (URLPath (Demo.get "/about" ∅))].
Proof.
  apply (renderer_debug_always_renders (RT := Demo.runtime)); reflexivity.
Defined.


(** ** The debug-flag revision from startup on *)

Section MainFacts.
Context `{RT : Runtime} (opts : MainGo.Options).

Lemma main_write_total g w r page :
  length (MainGo.tmpl g) = 2%nat → is_Some (MainGo.write g w r page).
Proof.
  intros Hlen. unfold MainGo.write.
  destruct (MainGo.tmpl g) as [|t0 [|t1 [|]]]; try done.
  destruct (GoStrings.EqualFold _ _); [by eexists|]. cbn.
  destruct (GoStrings.Contains _ _); by eexists.
Qed.

Lemma main_writeError_total g w r err :
  length (MainGo.tmpl g) = 2%nat → is_Some (MainGo.writeError g w r err).
Proof.
  intros Hlen. unfold MainGo.writeError.
  destruct (MainGo.tmpl g) as [|t0 [|t1 [|]]]; try done.
  destruct err; by eexists.
Qed.

(** When [main] of [src/main.go] gets to serve, the template has two
    fragments and the page cache is empty; and with two fragments
    [renderer] writes a response to every request and leaves the root
    and the fragments as they are, so the same holds for the next
    request. *)
Theorem renderer_serves_after_main :
  (∀ absPath disk g,
     MainGo.main opts absPath disk = Running g →
     absPath = Some (MainGo.root g) ∧
     length (MainGo.tmpl g) = 2%nat ∧ MainGo.cache g = ∅) ∧
  (∀ disk g w r,
     length (MainGo.tmpl g) = 2%nat →
     let s := MainGo.renderer opts disk g w r in
     is_Some (MainGo.response s) ∧
     MainGo.tmpl (MainGo.globals s) = MainGo.tmpl g ∧
     MainGo.root (MainGo.globals s) = MainGo.root g).
Proof.
  split.
  - intros absPath disk g. unfold MainGo.main, MainGo.setupTemplate.
    destruct absPath as [r|]; [|done]. cbn.
    destruct (ReadFile disk _) as [b|]; [|done].
    case_decide as Hlen; [done|]. intros [= <-]. cbn. split_and!; try done;
      by destruct (decide (length (GoBytes.Split b placeholder) = 2%nat)).
  - intros disk g w r Hlen. unfold MainGo.renderer.
    destruct (MainGo.cache g !! _); cbn; [by split; [apply main_write_total|]|].
    destruct (GetPage disk _); cbn.
    + destruct (MainGo.optDebug opts); cbn;
        by split; [apply main_write_total|].
    + by split; [apply main_writeError_total|].
Qed.

End MainFacts.

Lemma renderer_serves_after_main_witness :
  (∃ g, MainGo.main (RT := Demo.runtime) (Demo.mainOpts false) (Some "/srv/www") Demo.disk
        = Running g ∧
        length (MainGo.tmpl g) = 2%nat ∧ MainGo.cache g = ∅) ∧
  is_Some (MainGo.response
             (MainGo.renderer (RT := Demo.runtime) (Demo.mainOpts false) Demo.disk
                Demo.mainSite NewRecorder (Demo.get "/missing" ∅))).
Proof.
  destruct (renderer_serves_after_main (RT := Demo.runtime) (Demo.mainOpts false))
    as [Hmain Hserve].
  split.
  - assert (Hrun : MainGo.main (RT := Demo.runtime) (Demo.mainOpts false)
                     (Some "/srv/www") Demo.disk = Running Demo.mainSite)
      by (vm_compute; reflexivity).
    exists Demo.mainSite. split; [exact Hrun|].
    destruct (Hmain _ _ _ Hrun) as (_ & Hlen & Hcache). split; [exact Hlen|exact Hcache].
  - destruct (Hserve Demo.disk Demo.mainSite NewRecorder (Demo.get "/missing" ∅) eq_refl)
      as [Hsome _].
    exact Hsome.
Defined.
